(** * GeometrySmart: the sketch front end, the context retriever and the
      tutoring session of [src/App.tsx], embedded in Rocq.

    JavaScript strings are embedded as [string] holding their UTF-8 bytes;
    JavaScript numbers through the interface [JSNumber] below. React state
    is threaded explicitly: every handler is a function from the component
    state to the component state, and timers and promises that the source
    leaves pending are kept in the state until the event that resumes them. *)

From Stdlib Require Import ZArith List Bool Lia.
From Stdlib Require Import Strings.String Strings.Ascii Numbers.DecimalString.
Import ListNotations.

Local Open Scope list_scope.
Local Open Scope string_scope.

(* ================================================================== *)
(** ** JavaScript string operations *)
(* ================================================================== *)

Module JSString.

(** [hay.startsWith(needle)]. *)
Fixpoint startsWith (hay needle : string) {struct needle} : bool :=
  match needle with
  | EmptyString => true
  | String c needle' =>
      match hay with
      | EmptyString => false
      | String d hay' => Ascii.eqb c d && startsWith hay' needle'
      end
  end.

(** [hay.includes(needle)]: [needle] occurs at some position of [hay]. *)
Fixpoint includes (hay needle : string) : bool :=
  startsWith hay needle ||
  match hay with
  | EmptyString => false
  | String _ hay' => includes hay' needle
  end.

(** [String.prototype.toLowerCase] on one byte: the letters A-Z. Bytes of
    multi-byte code points are left alone (the two code points whose lower
    case contains an ASCII letter, U+0130 and U+212A, produce [i] followed
    by a combining mark and [k]; no keyword of the retriever can be
    completed by either). *)
Definition lower_ascii (c : ascii) : ascii :=
  let n := nat_of_ascii c in
  if (65 <=? n)%nat && (n <=? 90)%nat then ascii_of_nat (n + 32) else c.

Fixpoint toLowerCase (s : string) : string :=
  match s with
  | EmptyString => EmptyString
  | String c s' => String (lower_ascii c) (toLowerCase s')
  end.

(** [xs.join(sep)]. *)
Fixpoint join (sep : string) (xs : list string) : string :=
  match xs with
  | [] => ""
  | [x] => x
  | x :: rest => x ++ sep ++ join sep rest
  end.

(** White space and line terminators that [trim] strips, read on the UTF-8
    bytes: one-byte, two-byte and three-byte code points. *)
Definition ws1 (a : ascii) : bool :=
  let n := nat_of_ascii a in
  ((9 <=? n)%nat && (n <=? 13)%nat) || (n =? 32)%nat.

Definition ws2 (a b : ascii) : bool :=
  (nat_of_ascii a =? 194)%nat && (nat_of_ascii b =? 160)%nat.

Definition ws3 (a b c : ascii) : bool :=
  let x := nat_of_ascii a in
  let y := nat_of_ascii b in
  let z := nat_of_ascii c in
  ((x =? 225)%nat && (y =? 154)%nat && (z =? 128)%nat)          (* U+1680 *)
  || ((x =? 226)%nat && (y =? 128)%nat &&
      (((128 <=? z)%nat && (z <=? 138)%nat)                     (* U+2000-200A *)
       || (z =? 168)%nat || (z =? 169)%nat                      (* U+2028, U+2029 *)
       || (z =? 175)%nat))                                      (* U+202F *)
  || ((x =? 226)%nat && (y =? 129)%nat && (z =? 159)%nat)       (* U+205F *)
  || ((x =? 227)%nat && (y =? 128)%nat && (z =? 128)%nat)       (* U+3000 *)
  || ((x =? 239)%nat && (y =? 187)%nat && (z =? 191)%nat).      (* U+FEFF *)

(** [s.trim() === ""], the only use the source makes of [trim]. *)
Fixpoint trim_is_empty (s : string) : bool :=
  match s with
  | EmptyString => true
  | String a s1 =>
      if ws1 a then trim_is_empty s1
      else match s1 with
           | EmptyString => false
           | String b s2 =>
               if ws2 a b then trim_is_empty s2
               else match s2 with
                    | EmptyString => false
                    | String c s3 =>
                        if ws3 a b c then trim_is_empty s3 else false
                    end
           end
  end.

(** [s.length]: the number of UTF-16 code units of the string whose UTF-8
    bytes are [s]. A continuation byte counts 0, the lead byte of a
    four-byte sequence (a surrogate pair) counts 2, any other byte 1. *)
Definition units_of_byte (a : ascii) : nat :=
  let n := nat_of_ascii a in
  if (n <? 128)%nat then 1
  else if (n <? 192)%nat then 0
  else if (n <? 240)%nat then 1
  else 2.

Fixpoint js_length (s : string) : nat :=
  match s with
  | EmptyString => 0
  | String a s' => units_of_byte a + js_length s'
  end.

(** Truthiness of a string: non-empty. *)
Definition truthy (s : string) : bool :=
  match s with EmptyString => false | _ => true end.

Definition newline : string := String (ascii_of_nat 10) "".

End JSString.

Import JSString.

(* ================================================================== *)
(** ** Types *)
(* ================================================================== *)

Inductive GeometryType := default | cube | pyramid | frustum.

Definition GeometryType_eqb (a b : GeometryType) : bool :=
  match a, b with
  | default, default | cube, cube | pyramid, pyramid | frustum, frustum => true
  | _, _ => false
  end.

(** The string a [GeometryType] is at run time, as template literals
    interpolate it. *)
Definition type_string (t : GeometryType) : string :=
  match t with
  | default => "default"
  | cube => "cube"
  | pyramid => "pyramid"
  | frustum => "frustum"
  end.

Inductive Role := ai | user.

Record ChatMessage := mkMsg { role : Role; text : string }.

Record ProblemContext := mkCtx { ctx_type : GeometryType; ctx_text : string }.

(* ================================================================== *)
(** ** RAG / knowledge base *)
(* ================================================================== *)

Record KnowledgeEntry := mkEntry {
  definition : string;
  formulas : list string;
  properties : list string
}.

Module GEOMETRY_KNOWLEDGE_BASE.

Definition cube_entry : KnowledgeEntry := {|
  definition := "A regular hexahedron with 6 equal square faces.";
  formulas := [
    "Volume = s³ (where s is side length)";
    "Surface Area = 6s²";
    "Space Diagonal = s√3";
    "Face Diagonal = s√2" ];
  properties := ["12 Edges"; "8 Vertices"; "6 Faces"; "All angles are 90°"]
|}.

Definition pyramid_entry : KnowledgeEntry := {|
  definition := "A polyhedron with a polygonal base and triangular faces that meet at a point (apex).";
  formulas := [
    "Volume = (1/3) × Base Area × Height";
    "Slant Height² = Height² + (Base/2)² (for square pyramid)";
    "Total Surface Area = Base Area + Lateral Area" ];
  properties := [
    "The height is the perpendicular distance from apex to base";
    "Slant height is the height of the triangular face" ]
|}.

Definition frustum_entry : KnowledgeEntry := {|
  definition := "The portion of a cone or pyramid that remains after its upper part has been cut off by a plane parallel to its base.";
  formulas := [
    "Volume (Cone Frustum) = (1/3)πh(R² + r² + Rr)";
    "Lateral Area = π(R + r)s (where s is slant height)";
    "Slant Height s = √((R-r)² + h²)" ];
  properties := [
    "Two parallel bases (top and bottom)";
    "Height is perpendicular distance between bases" ]
|}.

Definition default_entry : KnowledgeEntry := {|
  definition := "A complex or general geometric shape.";
  formulas := ["Volume usually depends on decomposing the shape."];
  properties := [
    "Check for symmetry";
    "Identify basic components (spheres, cylinders, etc.)" ]
|}.

(** Property access [GEOMETRY_KNOWLEDGE_BASE[type]]: every [GeometryType]
    is a key of the object. *)
Definition get (t : GeometryType) : option KnowledgeEntry :=
  match t with
  | cube => Some cube_entry
  | pyramid => Some pyramid_entry
  | frustum => Some frustum_entry
  | default => Some default_entry
  end.

End GEOMETRY_KNOWLEDGE_BASE.

(** [GEOMETRY_KNOWLEDGE_BASE[type] || GEOMETRY_KNOWLEDGE_BASE.default] *)
Definition knowledge_of (t : GeometryType) : KnowledgeEntry :=
  match GEOMETRY_KNOWLEDGE_BASE.get t with
  | Some k => k
  | None => GEOMETRY_KNOWLEDGE_BASE.default_entry
  end.

(** The three keyword tests of [retrieveContext], on the lower-cased query. *)
Definition asks_volume (q : string) : bool :=
  includes q "volume" || includes q "space" || includes q "capacity".

Definition asks_area (q : string) : bool :=
  includes q "area" || includes q "surface".

Definition asks_other (q : string) : bool :=
  includes q "diagonal" || includes q "height" || includes q "slant".

(** [arr.push(x)], as a new list. *)
Definition push {A : Type} (arr : list A) (x : A) : list A := (arr ++ [x])%list.

(** The lines [retrievedInfo] holds when [retrieveContext] joins them. *)
Definition retrievedInfo (query : string) (type : GeometryType) : list string :=
  let knowledge := knowledge_of type in
  let q := toLowerCase query in
  let info0 := ["Definition: " ++ definition knowledge] in
  let info1 :=
    if asks_volume q
    then push info0 ("Relevant Formulas: " ++
           join "; " (filter (fun f => includes f "Volume") (formulas knowledge)))
    else info0 in
  let info2 :=
    if asks_area q
    then push info1 ("Relevant Formulas: " ++
           join "; " (filter (fun f => includes f "Area") (formulas knowledge)))
    else info1 in
  let info3 :=
    if asks_other q
    then push info2 ("Properties/Other Formulas: " ++ join "; " (formulas knowledge))
    else info2 in
  if (List.length info3 =? 1)%nat
  then push info3 ("Key Properties: " ++ join "; " (properties knowledge))
  else info3.

Definition retrieveContext (query : string) (type : GeometryType) : string :=
  join newline (retrievedInfo query type).

(** The retriever's text as a function of the kind and of the three keyword
    tests: the query enters in no other way. *)
Definition context_for_flags (type : GeometryType) (v a o : bool) : string :=
  let knowledge := knowledge_of type in
  let line_v := "Relevant Formulas: " ++
    join "; " (filter (fun f => includes f "Volume") (formulas knowledge)) in
  let line_a := "Relevant Formulas: " ++
    join "; " (filter (fun f => includes f "Area") (formulas knowledge)) in
  let line_o := "Properties/Other Formulas: " ++ join "; " (formulas knowledge) in
  let line_p := "Key Properties: " ++ join "; " (properties knowledge) in
  join newline
    (List.app ["Definition: " ++ definition knowledge]
      (List.app (if v then [line_v] else [])
        (List.app (if a then [line_a] else [])
          (List.app (if o then [line_o] else [])
            (if v || a || o then [] else [line_p]))))).

(** The last line of [retrievedInfo] is the properties line exactly when no
    keyword test succeeded. *)
Definition keyword_hit (query : string) : bool :=
  asks_volume (toLowerCase query) || asks_area (toLowerCase query)
  || asks_other (toLowerCase query).

Definition properties_line (type : GeometryType) : string :=
  "Key Properties: " ++ join "; " (properties (knowledge_of type)).

Definition definition_line (type : GeometryType) : string :=
  "Definition: " ++ definition (knowledge_of type).

(* ================================================================== *)
(** ** JavaScript numbers *)
(* ================================================================== *)

(** What the sketch pad does with numbers: add, subtract, halve, print with
    [toFixed(2)], print with the default conversion (as [Array.join] does),
    and test [Math.hypot(dx, dy) < 4]. The sketch pad is stated over any
    implementation of this interface. *)
Class JSNumber (num : Type) := {
  num_add : num -> num -> num;
  num_sub : num -> num -> num;
  num_half : num -> num;
  toFixed2 : num -> string;
  num_toString : num -> string;
  hypot_lt4 : num -> num -> bool
}.

(** A concrete implementation, for the examples: the dyadic rationals
    [mant / 2^expo], computed exactly. It agrees with IEEE doubles where
    doubles are exact and differs where they round:
    - sums, differences and halves are exact here; on doubles they are
      exact only while 53 bits of significand suffice;
    - [toFixed(2)] follows ECMAScript's definition on the exact value (sign
      first, then the integer [n] nearest to [100 * |x|], the larger one on
      a tie) and always prints plain digits, where ECMAScript turns to
      exponent notation from [1e21] on;
    - the default conversion prints the exact decimal expansion, where
      ECMAScript prints the shortest decimal that reads back as the same
      double: the two agree for a double with at most 15 significant
      digits and a magnitude in [1e-6, 1e21), such as an integer or 0.125,
      and differ for the double nearest to 0.1;
    - the distance test compares the exact squares with 16, where
      [Math.hypot] rounds its result.
    Only examples are computed with it, at integers and at 0.125; the
    theorems about the sketch pad hold for every implementation of
    [JSNumber]. *)
Module Dyadic.

Record dyadic := mk { mant : Z; expo : nat }.

Definition align (a b : dyadic) : Z * Z * nat :=
  let e := Nat.max (expo a) (expo b) in
  ((mant a * 2 ^ Z.of_nat (e - expo a))%Z,
   (mant b * 2 ^ Z.of_nat (e - expo b))%Z, e).

Definition add (a b : dyadic) : dyadic :=
  let '(x, y, e) := align a b in mk (x + y) e.

Definition sub (a b : dyadic) : dyadic :=
  let '(x, y, e) := align a b in mk (x - y) e.

Definition half (a : dyadic) : dyadic := mk (mant a) (S (expo a)).

Definition digits (n : Z) : string :=
  NilZero.string_of_uint (N.to_uint (Z.to_N n)).

Definition fixed2 (a : dyadic) : string :=
  let s := if (mant a <? 0)%Z then "-" else "" in
  let n := ((Z.abs (mant a) * 200 + 2 ^ Z.of_nat (expo a))
            / 2 ^ Z.of_nat (S (expo a)))%Z in
  let ip := (n / 100)%Z in
  let fp := (n mod 100)%Z in
  s ++ digits ip ++ "." ++ (if (fp <? 10)%Z then "0" else "") ++ digits fp.

(** Lowest terms: halve the numerator while it is even. *)
Fixpoint normalize (m : Z) (e : nat) : Z * nat :=
  match e with
  | O => (m, O)
  | S e' => if Z.even m then normalize (m / 2) e' else (m, e)
  end.

Fixpoint zeros (n : nat) : string :=
  match n with O => "" | S n' => "0" ++ zeros n' end.

Definition pad_left (width : nat) (s : string) : string :=
  zeros (width - String.length s) ++ s.

Definition to_string (a : dyadic) : string :=
  let '(m, e) := normalize (mant a) (expo a) in
  let s := if (m <? 0)%Z then "-" else "" in
  let d := (Z.abs m * 5 ^ Z.of_nat e)%Z in
  let ip := (d / 10 ^ Z.of_nat e)%Z in
  let fp := (d mod 10 ^ Z.of_nat e)%Z in
  match e with
  | O => s ++ digits ip
  | _ => s ++ digits ip ++ "." ++ pad_left e (digits fp)
  end.

Definition hypot_lt_4 (dx dy : dyadic) : bool :=
  let '(x, y, e) := align dx dy in
  (x * x + y * y <? 16 * 4 ^ Z.of_nat e)%Z.

(** The double that holds the integer [n]. *)
Definition of_Z (n : Z) : dyadic := mk n 0.

End Dyadic.

#[export] Instance Dyadic_JSNumber : JSNumber Dyadic.dyadic := {|
  num_add := Dyadic.add;
  num_sub := Dyadic.sub;
  num_half := Dyadic.half;
  toFixed2 := Dyadic.fixed2;
  num_toString := Dyadic.to_string;
  hypot_lt4 := Dyadic.hypot_lt_4
|}.

(* ================================================================== *)
(** ** Stroke smoother *)
(* ================================================================== *)

Section Smoother.

Context {num : Type} `{JSNumber num}.

(** A point is the two-element array [[x, y]] that [getCoordinates]
    returns. *)
Definition Point : Type := (num * num)%type.

(** [p.join(' ')] *)
Definition point_join (p : Point) : string :=
  join " " [num_toString (fst p); num_toString (snd p)].

(** One turn of the [for] loop of [getSmoothedPath]: [d += ` Q ...`]. *)
Definition smooth_step (points : list Point) (p0 : Point) (d : string) (i : nat) : string :=
  let cp := nth i points p0 in
  let next := nth (i + 1) points p0 in
  let midX := num_half (num_add (fst cp) (fst next)) in
  let midY := num_half (num_add (snd cp) (snd next)) in
  d ++ " Q " ++ toFixed2 (fst cp) ++ " " ++ toFixed2 (snd cp)
    ++ " " ++ toFixed2 midX ++ " " ++ toFixed2 midY.

Definition getSmoothedPath (points : list Point) : string :=
  match points with
  | [] => ""
  | p0 :: _ =>
      if (List.length points <? 3)%nat
      then "M " ++ join " L " (map point_join points)
      else
        let d := "M " ++ toFixed2 (fst p0) ++ " " ++ toFixed2 (snd p0) in
        (* for (let i = 1; i < points.length - 1; i++) *)
        let d := fold_left (smooth_step points p0) (seq 1 (List.length points - 2)) d in
        let last := nth (List.length points - 1) points p0 in
        d ++ " L " ++ toFixed2 (fst last) ++ " " ++ toFixed2 (snd last)
  end.

(** *** The curve as the specification describes it *)

Inductive Segment :=
| MoveTo (p : Point)
| LineTo (p : Point)
| QuadTo (control endpoint : Point).

Definition midpoint (a b : Point) : Point :=
  (num_half (num_add (fst a) (fst b)), num_half (num_add (snd a) (snd b))).

(** For each interior point: a quadratic segment with that point as
    control point, ending at the midpoint to its successor. [cp] is the
    current point, [rest] the points after it; the last point is not
    interior. *)
Fixpoint interior_quads (cp : Point) (rest : list Point) : list Segment :=
  match rest with
  | [] => []
  | next :: rest' => QuadTo cp (midpoint cp next) :: interior_quads next rest'
  end.

Definition spec_curve (points : list Point) : list Segment :=
  match points with
  | [] => []
  | [p] => [MoveTo p]
  | [p; q] => [MoveTo p; LineTo q]
  | p0 :: p1 :: rest =>
      (MoveTo p0 :: interior_quads p1 rest ++ [LineTo (last rest p1)])%list
  end.

(** The path data of a curve, each coordinate printed by [fmt]. *)
Definition serialize_point (fmt : num -> string) (p : Point) : string :=
  fmt (fst p) ++ " " ++ fmt (snd p).

Definition serialize_segment (fmt : num -> string) (s : Segment) : string :=
  match s with
  | MoveTo p => "M " ++ serialize_point fmt p
  | LineTo p => "L " ++ serialize_point fmt p
  | QuadTo c e => "Q " ++ serialize_point fmt c ++ " " ++ serialize_point fmt e
  end.

Definition serialize (fmt : num -> string) (c : list Segment) : string :=
  join " " (map (serialize_segment fmt) c).

(** The point a curve starts at and the point it ends at. *)
Definition segment_end (s : Segment) : Point :=
  match s with MoveTo p | LineTo p => p | QuadTo _ e => e end.

Definition curve_start (c : list Segment) : option Point :=
  match c with
  | MoveTo p :: _ => Some p
  | _ => None
  end.

Definition curve_end (c : list Segment) : option Point :=
  match c with
  | [] => None
  | s :: c' => Some (segment_end (last c' s))
  end.

(** Every coordinate of the path data is printed by [toFixed(2)]. *)
Definition all_coordinates_toFixed2 (points : list Point) : Prop :=
  getSmoothedPath points = serialize toFixed2 (spec_curve points).

(** The text the loop of [getSmoothedPath] adds for a run of quadratic
    segments. *)
Definition quads_text (qs : list Segment) : string :=
  fold_right (fun q acc => " " ++ serialize_segment toFixed2 q ++ acc) "" qs.

(** The curve of at least three points, by index as the specification
    words it: interior point [i] runs over [1 .. n-2]. *)
Definition indexed_curve (points : list Point) (d : Point) : list Segment :=
  (MoveTo (nth 0 points d)
   :: map (fun i => QuadTo (nth i points d)
                      (midpoint (nth i points d) (nth (i + 1) points d)))
        (seq 1 (List.length points - 2))
   ++ [LineTo (nth (List.length points - 1) points d)])%list.

End Smoother.

(** Strokes on the dyadic numbers. *)
Definition pt (x y : Z) : @Point Dyadic.dyadic := (Dyadic.of_Z x, Dyadic.of_Z y).

(* ================================================================== *)
(** ** Sketch pad *)
(* ================================================================== *)

Inductive TemplateName := CUBE | PYRAMID | FRUSTUM.

Definition TEMPLATES (t : TemplateName) : string :=
  match t with
  | CUBE => "M 150 100 L 236 150 L 236 250 L 150 300 L 64 250 L 64 150 L 150 100 Z M 150 100 L 150 200 M 150 200 L 64 250 M 150 200 L 236 250"
  | PYRAMID => "M 150 60 L 70 200 L 150 250 L 230 200 Z M 150 60 L 150 250"
  | FRUSTUM => "M 100 100 L 200 100 L 220 250 L 80 250 Z M 100 100 Q 150 80 200 100 M 100 100 Q 150 120 200 100 M 80 250 Q 150 270 220 250"
  end.

(** The kind each template button passes to [addTemplate]. *)
Definition template_type (t : TemplateName) : GeometryType :=
  match t with
  | CUBE => cube
  | PYRAMID => pyramid
  | FRUSTUM => frustum
  end.

(** Where a committed path came from. The source keeps only the path data;
    the origin is carried along to state what the code never reads. *)
Inductive Origin := FreeHand | FromTemplate (kind : GeometryType).

Definition is_freehand (o : Origin) : bool :=
  match o with FreeHand => true | FromTemplate _ => false end.

Section Sketchpad.

Context {num : Type} `{JSNumber num}.

(** The state of [SketchpadView]: its five [useState] cells, the
    [setTimeout] callbacks not yet run ([timers], each the context it will
    pass to [onComplete]) and the calls of [onComplete] made so far. *)
Record Sketchpad := mkSketchpad {
  committed : list (string * Origin);
  currentPoints : list (@Point num);
  isSolving : bool;
  showRecognition : bool;
  selectedTemplate : GeometryType;
  timers : list ProblemContext;
  completed : list ProblemContext
}.

Definition paths (s : Sketchpad) : list string := map fst (committed s).

Definition sketchpad_init : Sketchpad :=
  mkSketchpad [] [] false false default [] [].

Definition setCommitted (f : list (string * Origin) -> list (string * Origin))
    (s : Sketchpad) : Sketchpad :=
  mkSketchpad (f (committed s)) (currentPoints s) (isSolving s)
    (showRecognition s) (selectedTemplate s) (timers s) (completed s).

Definition setCurrentPoints (f : list Point -> list Point) (s : Sketchpad) : Sketchpad :=
  mkSketchpad (committed s) (f (currentPoints s)) (isSolving s)
    (showRecognition s) (selectedTemplate s) (timers s) (completed s).

Definition setIsSolving (b : bool) (s : Sketchpad) : Sketchpad :=
  mkSketchpad (committed s) (currentPoints s) b
    (showRecognition s) (selectedTemplate s) (timers s) (completed s).

Definition setShowRecognition (b : bool) (s : Sketchpad) : Sketchpad :=
  mkSketchpad (committed s) (currentPoints s) (isSolving s)
    b (selectedTemplate s) (timers s) (completed s).

Definition setSelectedTemplate (t : GeometryType) (s : Sketchpad) : Sketchpad :=
  mkSketchpad (committed s) (currentPoints s) (isSolving s)
    (showRecognition s) t (timers s) (completed s).

(** [setTimeout(() => onComplete(c), 1500)] *)
Definition setTimeout_onComplete (c : ProblemContext) (s : Sketchpad) : Sketchpad :=
  mkSketchpad (committed s) (currentPoints s) (isSolving s)
    (showRecognition s) (selectedTemplate s) (push (timers s) c) (completed s).

Definition handlePointerDown (p : Point) (s : Sketchpad) : Sketchpad :=
  if isSolving s then s
  else setCurrentPoints (fun _ => [p]) s.

Definition handlePointerMove (buttons : nat) (p : Point) (s : Sketchpad) : Sketchpad :=
  if negb (buttons =? 1)%nat || isSolving s then s
  else
    setCurrentPoints (fun prev =>
      match prev with
      | [] => push prev p
      | p0 :: _ =>
          let last := nth (List.length prev - 1) prev p0 in
          if hypot_lt4 (num_sub (fst last) (fst p)) (num_sub (snd last) (snd p))
          then prev
          else push prev p
      end) s.

Definition handlePointerUp (s : Sketchpad) : Sketchpad :=
  let s :=
    if (1 <? List.length (currentPoints s))%nat
    then
      let d := getSmoothedPath (currentPoints s) in
      setCommitted (fun prev => push prev (d, FreeHand)) s
    else s in
  setCurrentPoints (fun _ => []) s.

Definition addTemplate (d : string) (type : GeometryType) (s : Sketchpad) : Sketchpad :=
  setSelectedTemplate type
    (setCommitted (fun prev => push prev (d, FromTemplate type)) s).

Definition clearCanvas (s : Sketchpad) : Sketchpad :=
  setSelectedTemplate default (setCommitted (fun _ => []) s).

(** [prev.slice(0, -1)] *)
Definition undoLast (s : Sketchpad) : Sketchpad :=
  setCommitted (@removelast _) s.

Definition handleMagic (s : Sketchpad) : Sketchpad :=
  if (List.length (paths s) =? 0)%nat then s
  else if GeometryType_eqb (selectedTemplate s) default
  then setShowRecognition true s
  else
    setTimeout_onComplete
      (mkCtx (selectedTemplate s)
         ("User sketched a " ++ type_string (selectedTemplate s)
          ++ " and wants to analyze it."))
      (setIsSolving true s).

Definition handleRecognitionConfirm (type : GeometryType) (s : Sketchpad) : Sketchpad :=
  setTimeout_onComplete
    (mkCtx type
       (if GeometryType_eqb type default
        then "User sketched a complex geometric shape. Ask them to describe its faces and vertices."
        else "User sketched a " ++ type_string type ++ "."))
    (setIsSolving true (setShowRecognition false s)).

(** The modal's [onCancel]. *)
Definition handleRecognitionCancel (s : Sketchpad) : Sketchpad :=
  setShowRecognition false s.

(** The oldest pending timer runs: [onComplete] is called. *)
Definition timer_fires (s : Sketchpad) : Sketchpad :=
  match timers s with
  | [] => s
  | c :: rest =>
      mkSketchpad (committed s) (currentPoints s) (isSolving s)
        (showRecognition s) (selectedTemplate s) rest (push (completed s) c)
  end.

(** What can happen to the view: pointer events on the drawing surface,
    clicks on the tool bar, on the solve button (disabled with an empty
    canvas or while solving) and on the modal (there only while
    [showRecognition]), and a timer running out. *)
Inductive SketchEvent :=
| PointerDown (p : @Point num)
| PointerMove (buttons : nat) (p : @Point num)
| PointerUp
| PointerLeave
| ClickUndo
| ClickClear
| ClickTemplate (t : TemplateName)
| ClickSolve
| ModalConfirm (type : GeometryType)
| ModalCancel
| TimerFires.

Definition sketch_step (s : Sketchpad) (e : SketchEvent) : Sketchpad :=
  match e with
  | PointerDown p => handlePointerDown p s
  | PointerMove b p => handlePointerMove b p s
  | PointerUp | PointerLeave => handlePointerUp s
  | ClickUndo => undoLast s
  | ClickClear => clearCanvas s
  | ClickTemplate t => addTemplate (TEMPLATES t) (template_type t) s
  | ClickSolve =>
      if (List.length (paths s) =? 0)%nat || isSolving s then s else handleMagic s
  | ModalConfirm type =>
      if showRecognition s then handleRecognitionConfirm type s else s
  | ModalCancel =>
      if showRecognition s then handleRecognitionCancel s else s
  | TimerFires => timer_fires s
  end.

Definition sketch_run (s : Sketchpad) (es : list SketchEvent) : Sketchpad :=
  fold_left sketch_step es s.

Definition is_undo (e : SketchEvent) : bool :=
  match e with ClickUndo => true | _ => false end.

Definition is_confirm_or_template (e : SketchEvent) : bool :=
  match e with ModalConfirm _ | ClickTemplate _ => true | _ => false end.

(** No committed path came from a template. *)
Definition no_template_path (s : Sketchpad) : bool :=
  forallb (fun c => is_freehand (snd c)) (committed s).

(** Some committed path was drawn free-hand. *)
Definition some_freehand_path (s : Sketchpad) : bool :=
  existsb (fun c => is_freehand (snd c)) (committed s).

(** Undo would remove the only template path left on the canvas. *)
Definition removes_last_template (s : Sketchpad) : bool :=
  negb (no_template_path s) && no_template_path (undoLast s).

(** Along the events [es] from [s]: an undo has removed the only template
    path left on the canvas, and neither a clear nor a template insertion
    has followed it. [stale] says whether that was so before [es]. *)
Fixpoint stale_kind (s : Sketchpad) (stale : bool) (es : list SketchEvent) : bool :=
  match es with
  | [] => stale
  | e :: es' =>
      stale_kind (sketch_step s e)
        match e with
        | ClickUndo => stale || removes_last_template s
        | ClickClear | ClickTemplate _ => false
        | _ => stale
        end
        es'
  end.

(** The selected kind against the committed paths: while the kind is not
    stale it is [default] exactly when no path came from a template; once
    stale it is a template's kind with no template path left. *)
Definition kind_matches_paths (s : Sketchpad) (stale : bool) : Prop :=
  if stale
  then selectedTemplate s <> default /\ no_template_path s = true
  else (no_template_path s = true -> selectedTemplate s = default)
       /\ (no_template_path s = false -> selectedTemplate s <> default).

(** The contexts passed to [onComplete] so far, followed by those a pending
    timer will pass. *)
Definition emitted_or_scheduled (s : Sketchpad) : list ProblemContext :=
  (completed s ++ timers s)%list.

End Sketchpad.

Arguments Sketchpad num : clear implicits.
Arguments SketchEvent num : clear implicits.

(** A canvas with one free-hand stroke. *)
Definition one_stroke : Sketchpad Dyadic.dyadic :=
  sketch_run sketchpad_init [PointerDown (pt 0 0); PointerMove 1 (pt 10 0); PointerUp].

(* ================================================================== *)
(** ** Scan view *)
(* ================================================================== *)

Module ScanView.

Definition upload_placeholder : string :=
  "User uploaded an image file containing a geometry problem. The AI should act as if it can see the problem but needs the user to transcribe specific numbers.".

Definition examples : list ProblemContext := [
  mkCtx pyramid "Calculate the total surface area of a square-based pyramid with base length 10cm and slant height 14cm.";
  mkCtx cube "A cube has a volume of 512 cm³. Find the length of its main space diagonal.";
  mkCtx frustum "A bucket is in the shape of a frustum with top radius 15cm, bottom radius 10cm, and height 20cm. Find its capacity.";
  mkCtx default "A sphere is inscribed perfectly inside a cylinder with height 10 units. What is the ratio of their volumes?"
].

(** The two [useState] cells of [ScanView] and the calls of [onAnalyze]
    made so far. *)
Record State := mk {
  dragActive : bool;
  problemText : string;
  analyzed : list ProblemContext
}.

Definition init : State := mk false "" [].

Definition onAnalyze (c : ProblemContext) (s : State) : State :=
  mk (dragActive s) (problemText s) (push (analyzed s) c).

Definition handleDrag (type : string) (s : State) : State :=
  if String.eqb type "dragenter" || String.eqb type "dragover"
  then mk true (problemText s) (analyzed s)
  else if String.eqb type "dragleave"
  then mk false (problemText s) (analyzed s)
  else s.

(** [has_file]: [e.dataTransfer.files && e.dataTransfer.files[0]]. *)
Definition handleDrop (has_file : bool) (s : State) : State :=
  let s := mk false (problemText s) (analyzed s) in
  if has_file then mk (dragActive s) upload_placeholder (analyzed s) else s.

(** The drop zone's [onClick]: [setProblemText(prev => prev || placeholder)]. *)
Definition clickDropZone (s : State) : State :=
  mk (dragActive s)
     (if truthy (problemText s) then problemText s else upload_placeholder)
     (analyzed s).

Definition handleAnalyze (s : State) : State :=
  if trim_is_empty (problemText s) then s
  else onAnalyze (mkCtx default (problemText s)) s.

Inductive Event :=
| Drag (type : string)
| Drop (has_file : bool)
| ClickDropZone
| TextChange (value : string)
| ClickAnalyze
| ClickExample (i : nat).

Definition step (s : State) (e : Event) : State :=
  match e with
  | Drag type => handleDrag type s
  | Drop f => handleDrop f s
  | ClickDropZone => clickDropZone s
  | TextChange v => mk (dragActive s) v (analyzed s)
  | ClickAnalyze =>
      (* disabled={!problemText} *)
      if truthy (problemText s) then handleAnalyze s else s
  | ClickExample i =>
      match nth_error examples i with
      | Some ex => onAnalyze ex s
      | None => s
      end
  end.

Definition run (s : State) (es : list Event) : State := fold_left step es s.

Definition is_example_click (e : Event) : bool :=
  match e with ClickExample _ => true | _ => false end.

(** Every emitted context is of the complex kind or one of the examples. *)
Definition typed_or_example (s : State) : Prop :=
  Forall (fun c => ctx_type c = default \/ In c examples) (analyzed s).

Definition typed_only (s : State) : Prop :=
  Forall (fun c => ctx_type c = default) (analyzed s).

End ScanView.

(* ================================================================== *)
(** ** Workspace: the tutoring session *)
(* ================================================================== *)

Module Workspace.

(** Where the asynchronous part of one [handleSendMessage] call stands:
    its 600 ms timer is pending; [sendMessageStream] was called and is
    awaited; the stream is being read, [fullText] so far. *)
Inductive Phase :=
| Retrieving
| Sending
| Streaming (fullText : string).

(** The closure of one [handleSendMessage] call. *)
Record Turn := mkTurn {
  userMsg : string;
  contextData : string;
  phase : Phase
}.

(** The state of [WorkspaceView]. [chatSessionRef] holds the chat handle,
    here the context its system instruction was built from; [turns] are
    the calls of [handleSendMessage] still running; [sent] the prompts
    passed to [sendMessageStream]. *)
Record State := mk {
  context : ProblemContext;
  messages : list ChatMessage;
  inputText : string;
  isTyping : bool;
  isRetrieving : bool;
  chatSessionRef : option ProblemContext;
  turns : list Turn;
  sent : list string
}.

Definition mount (context : ProblemContext) : State :=
  mk context [] "" false false None [] [].

Definition setMessages (f : list ChatMessage -> list ChatMessage) (s : State) : State :=
  mk (context s) (f (messages s)) (inputText s) (isTyping s) (isRetrieving s)
     (chatSessionRef s) (turns s) (sent s).

Definition setInputText (v : string) (s : State) : State :=
  mk (context s) (messages s) v (isTyping s) (isRetrieving s)
     (chatSessionRef s) (turns s) (sent s).

Definition setIsTyping (b : bool) (s : State) : State :=
  mk (context s) (messages s) (inputText s) b (isRetrieving s)
     (chatSessionRef s) (turns s) (sent s).

Definition setIsRetrieving (b : bool) (s : State) : State :=
  mk (context s) (messages s) (inputText s) (isTyping s) b
     (chatSessionRef s) (turns s) (sent s).

Definition setChatSessionRef (c : option ProblemContext) (s : State) : State :=
  mk (context s) (messages s) (inputText s) (isTyping s) (isRetrieving s)
     c (turns s) (sent s).

Definition setTurns (f : list Turn -> list Turn) (s : State) : State :=
  mk (context s) (messages s) (inputText s) (isTyping s) (isRetrieving s)
     (chatSessionRef s) (f (turns s)) (sent s).

Definition sendMessageStream (prompt : string) (s : State) : State :=
  mk (context s) (messages s) (inputText s) (isTyping s) (isRetrieving s)
     (chatSessionRef s) (turns s) (push (sent s) prompt).

(** *** Initialization *)

Definition signals_image_upload (c : ProblemContext) : bool :=
  truthy (ctx_text c) && includes (ctx_text c) "User uploaded an image".

Definition text_is_long (c : ProblemContext) : bool :=
  truthy (ctx_text c) && (10 <? js_length (ctx_text c))%nat.

Definition initialMsg (c : ProblemContext) : string :=
  let initialMsg :=
    "I've analyzed the "
    ++ (if GeometryType_eqb (ctx_type c) default then "geometry" else type_string (ctx_type c))
    ++ "." in
  if signals_image_upload c
  then initialMsg ++ " Since I can't read the specific numbers from the image perfectly yet, could you tell me what values are given?"
  else if GeometryType_eqb (ctx_type c) default
  then initialMsg ++ " It looks complex. Can you describe the faces or vertices to help me understand it better?"
  else if text_is_long c
  then initialMsg ++ " It looks like an interesting problem. What is the first variable we need to identify?"
  else initialMsg ++ " I'm ready to help you solve it. Where should we start?".

(** The effect that runs on mount: the chat handle is created and stored,
    and the transcript is set to the opening message. *)
Definition initChat (s : State) : State :=
  setMessages (fun _ => [mkMsg ai (initialMsg (context s))])
    (setChatSessionRef (Some (context s)) s).

(** *** One user turn *)

Definition handleSendMessage (s : State) : State :=
  if trim_is_empty (inputText s)
     || match chatSessionRef s with None => true | Some _ => false end
  then s
  else
    let userMsg := inputText s in
    let s := setInputText "" s in
    let s := setMessages (fun prev => push prev (mkMsg user userMsg)) s in
    let s := setIsRetrieving true s in
    let contextData := retrieveContext userMsg (ctx_type (context s)) in
    (* setTimeout(async () => ..., 600) *)
    setTurns (fun ts => push ts (mkTurn userMsg contextData Retrieving)) s.

Definition handleKeyPress (key : string) (s : State) : State :=
  if String.eqb key "Enter" then handleSendMessage s else s.

(** The send button: [disabled={!inputText.trim() || isTyping || isRetrieving}]. *)
Definition send_disabled (s : State) : bool :=
  trim_is_empty (inputText s) || isTyping s || isRetrieving s.

Definition clickSend (s : State) : State :=
  if send_disabled s then s else handleSendMessage s.

Definition connection_error : string := "Connection error. Please try again.".

(** [xs] with element [i] replaced by [x] / removed. *)
Fixpoint set_nth {A} (i : nat) (x : A) (xs : list A) : list A :=
  match xs, i with
  | [], _ => []
  | _ :: rest, O => x :: rest
  | y :: rest, S i' => y :: set_nth i' x rest
  end.

Fixpoint drop_nth {A} (i : nat) (xs : list A) : list A :=
  match xs, i with
  | [], _ => []
  | _ :: rest, O => rest
  | y :: rest, S i' => y :: drop_nth i' rest
  end.

(** [newArr[newArr.length - 1] = m] on a copy of the transcript (an
    assignment at index -1 adds no element to an empty array). *)
Definition set_last (m : ChatMessage) (prev : list ChatMessage) : list ChatMessage :=
  match prev with
  | [] => []
  | _ => (removelast prev ++ [m])%list
  end.

(** The [catch] and [finally] blocks. *)
Definition catch_finally (i : nat) (s : State) : State :=
  let s := setMessages (fun prev => push prev (mkMsg ai connection_error)) s in
  let s := setIsTyping false s in
  setTurns (drop_nth i) s.

(** The events that resume turn [i]. *)
Definition timer_fires (i : nat) (s : State) : State :=
  match nth_error (turns s) i with
  | Some (mkTurn m c Retrieving) =>
      let s := setIsRetrieving false s in
      let s := setIsTyping true s in
      let promptWithContext := "[Context: " ++ c ++ "] User Question: " ++ m in
      let s := sendMessageStream promptWithContext s in
      setTurns (set_nth i (mkTurn m c Sending)) s
  | _ => s
  end.

Definition send_resolves (i : nat) (s : State) : State :=
  match nth_error (turns s) i with
  | Some (mkTurn m c Sending) =>
      let s := setMessages (fun prev => push prev (mkMsg ai "")) s in
      setTurns (set_nth i (mkTurn m c (Streaming ""))) s
  | _ => s
  end.

Definition chunk_arrives (i : nat) (text : string) (s : State) : State :=
  match nth_error (turns s) i with
  | Some (mkTurn m c (Streaming fullText)) =>
      if truthy text
      then
        let fullText := fullText ++ text in
        let s := setMessages (set_last (mkMsg ai fullText)) s in
        setTurns (set_nth i (mkTurn m c (Streaming fullText))) s
      else s
  | _ => s
  end.

Definition stream_ends (i : nat) (s : State) : State :=
  match nth_error (turns s) i with
  | Some (mkTurn m c (Streaming _)) =>
      let s := setIsTyping false s in
      setTurns (drop_nth i) s
  | _ => s
  end.

(** The request or the stream throws (a transport failure). *)
Definition transport_fails (i : nat) (s : State) : State :=
  match nth_error (turns s) i with
  | Some (mkTurn m c Sending) | Some (mkTurn m c (Streaming _)) => catch_finally i s
  | _ => s
  end.

(** The events of a session, that is of the view between two changes of
    its [context] prop: the input field, the Enter key and the send button,
    and what resumes a turn. The change of the prop, on which [initChat]
    runs again, is an event of [Mounted] below. *)
Inductive Event :=
| InputChange (value : string)
| KeyDown (key : string)
| ClickSend
| TimerFires (i : nat)
| SendResolves (i : nat)
| ChunkArrives (i : nat) (text : string)
| StreamEnds (i : nat)
| TransportFails (i : nat).

Definition step (s : State) (e : Event) : State :=
  match e with
  | InputChange v => setInputText v s
  | KeyDown key => handleKeyPress key s
  | ClickSend => clickSend s
  | TimerFires i => timer_fires i s
  | SendResolves i => send_resolves i s
  | ChunkArrives i text => chunk_arrives i text s
  | StreamEnds i => stream_ends i s
  | TransportFails i => transport_fails i s
  end.

Definition run (s : State) (es : list Event) : State := fold_left step es s.

(** The session states of the specification, read off the two flags. *)
Definition Ready (s : State) : Prop :=
  isRetrieving s = false /\ isTyping s = false /\ turns s = [].

Definition in_flight (s : State) : bool := isRetrieving s || isTyping s.

Definition user_messages (s : State) : list ChatMessage :=
  filter (fun m => match role m with user => true | ai => false end) (messages s).

(** The four openers of the specification and the priority among them. *)
Inductive Opener :=
| AskMeasurements
| AskFacesVertices
| AskFirstVariable
| AskWhereToStart.

Definition choose_opener (c : ProblemContext) : Opener :=
  if signals_image_upload c then AskMeasurements
  else match ctx_type c with
       | default => AskFacesVertices
       | _ => if text_is_long c then AskFirstVariable else AskWhereToStart
       end.

Definition opener_text (o : Opener) : string :=
  match o with
  | AskMeasurements =>
      " Since I can't read the specific numbers from the image perfectly yet, could you tell me what values are given?"
  | AskFacesVertices =>
      " It looks complex. Can you describe the faces or vertices to help me understand it better?"
  | AskFirstVariable =>
      " It looks like an interesting problem. What is the first variable we need to identify?"
  | AskWhereToStart =>
      " I'm ready to help you solve it. Where should we start?"
  end.

Definition greeting (t : GeometryType) : string :=
  "I've analyzed the "
  ++ match t with default => "geometry" | _ => type_string t end ++ ".".

Definition Opener_eqb (a b : Opener) : bool :=
  match a, b with
  | AskMeasurements, AskMeasurements | AskFacesVertices, AskFacesVertices
  | AskFirstVariable, AskFirstVariable | AskWhereToStart, AskWhereToStart => true
  | _, _ => false
  end.

(** The message asks about faces or vertices. *)
Definition asks_faces_or_vertices (m : string) : bool :=
  includes m "faces" || includes m "vertices".

(** The text of a reply: its fragments in order. *)
Definition concat_chunks (chunks : list string) : string :=
  fold_right append "" chunks.

(** One turn whose request is rejected, and one whose stream breaks after
    the fragments [chunks]. *)
Definition turn_failing_at_send (s : State) (msg : string) : State :=
  run s [InputChange msg; ClickSend; TimerFires 0; TransportFails 0].

Definition turn_failing_in_stream (s : State) (msg : string) (chunks : list string) : State :=
  run s ([InputChange msg; ClickSend; TimerFires 0; SendResolves 0]
         ++ map (ChunkArrives 0) chunks ++ [TransportFails 0])%list.

End Workspace.

(* ================================================================== *)
(** ** Sketch pad: strokes, counts and canned contexts *)
(* ================================================================== *)

Section SketchpadMeasures.

Context {num : Type} `{JSNumber num}.

(** [Math.hypot(a[0] - b[0], a[1] - b[1]) < 4], the test of
    [handlePointerMove] with [a] the last recorded point. *)
Definition within_threshold (a b : @Point num) : bool :=
  hypot_lt4 (num_sub (fst a) (fst b)) (num_sub (snd a) (snd b)).

(** No point of the stroke is within the threshold of its predecessor. *)
Fixpoint spaced (pts : list (@Point num)) : bool :=
  match pts with
  | a :: (b :: _) as rest => negb (within_threshold a b) && spaced rest
  | _ => true
  end.

Definition freehand_count (s : Sketchpad num) : nat :=
  List.length (filter (fun c => is_freehand (snd c)) (committed s)).

(** The pad is solving and holds no stroke in progress. *)
Definition solving_idle (s : Sketchpad num) : Prop :=
  isSolving s = true /\ currentPoints s = [].

End SketchpadMeasures.

(** The three texts the sketch pad gives a context, by kind. *)
Definition canned_sketch_context (c : ProblemContext) : bool :=
  match ctx_type c with
  | default =>
      String.eqb (ctx_text c)
        "User sketched a complex geometric shape. Ask them to describe its faces and vertices."
  | k =>
      String.eqb (ctx_text c) ("User sketched a " ++ type_string k ++ ".")
      || String.eqb (ctx_text c)
           ("User sketched a " ++ type_string k ++ " and wants to analyze it.")
  end.

(* ================================================================== *)
(** ** Tutoring session: turns and disciplines *)
(* ================================================================== *)

Module Session.
Import Workspace.

(** One turn that runs to the end of its stream. *)
Definition turn_completing (s : State) (msg : string) (chunks : list string) : State :=
  run s ([InputChange msg; ClickSend; TimerFires 0; SendResolves 0]
         ++ map (ChunkArrives 0) chunks ++ [StreamEnds 0])%list.

(** [promptWithContext] for the question [q] in a session of kind [k]. *)
Definition prompt_for (k : GeometryType) (q : string) : string :=
  "[Context: " ++ retrieveContext q k ++ "] User Question: " ++ q.

(** The event is a key press that [handleKeyPress] sends on. *)
Definition is_enter_key (e : Event) : bool :=
  match e with
  | KeyDown key => String.eqb key "Enter"
  | _ => false
  end.

(** At most one turn runs, and the two flags say where it stands. *)
Definition single_flight (s : State) : bool :=
  match turns s with
  | [] => negb (isRetrieving s) && negb (isTyping s)
  | [t] =>
      match phase t with
      | Retrieving => isRetrieving s && negb (isTyping s)
      | _ => negb (isRetrieving s) && isTyping s
      end
  | _ => false
  end.

(** The session before [initChat] has run. *)
Definition uninitialized (s : State) : Prop :=
  chatSessionRef s = None /\ turns s = [] /\ messages s = [] /\ sent s = [].


(** No user message of the transcript is blank. *)
Definition user_messages_nonblank (s : State) : Prop :=
  Forall (fun m => role m = user -> trim_is_empty (text m) = false) (messages s).

End Session.

(* ================================================================== *)
(** ** The mounted workspace view: sessions and changes of context *)
(* ================================================================== *)

Module Mounted.
Import Workspace.

(** What can happen to the view while it stays mounted: an event of the
    running session, or the [context] prop changing. [WorkspaceView] is
    rendered under a constant key, so a new [problemContext] reaches the
    mounted view, and the effect that depends on [context] runs [initChat]
    again: a new chat handle is stored and the transcript is set to the
    opening message, while the input, the two flags and the turns in flight
    stay as they are. *)
Inductive Event :=
| OfSession (e : Workspace.Event)
| ContextChanges (context : ProblemContext).

Definition context_changes (c : ProblemContext) (s : State) : State :=
  initChat
    (mk c (messages s) (inputText s) (isTyping s) (isRetrieving s)
        (chatSessionRef s) (turns s) (sent s)).

Definition step (s : State) (e : Event) : State :=
  match e with
  | OfSession e => Workspace.step s e
  | ContextChanges c => context_changes c s
  end.

Definition run (s : State) (es : list Event) : State := fold_left step es s.

Definition is_context_change (e : Event) : bool :=
  match e with ContextChanges _ => true | OfSession _ => false end.

(** The kinds of the contexts given to the view along [es]. *)
Fixpoint kinds_given (es : list Event) : list GeometryType :=
  match es with
  | [] => []
  | ContextChanges c :: es' => ctx_type c :: kinds_given es'
  | OfSession _ :: es' => kinds_given es'
  end.

(** The event gives the view no kind outside [K]. *)
Definition kind_allowed (K : list GeometryType) (e : Event) : bool :=
  match e with
  | ContextChanges c => existsb (GeometryType_eqb (ctx_type c)) K
  | OfSession _ => true
  end.

(** What every running turn and every prompt sent looks like when the view
    was given kinds of [K] only. *)
Definition turn_from (K : list GeometryType) (t : Turn) : Prop :=
  exists k : GeometryType,
    In k K /\ contextData t = retrieveContext (userMsg t) k
    /\ trim_is_empty (userMsg t) = false.

Definition prompt_from (K : list GeometryType) (p : string) : Prop :=
  exists (q : string) (k : GeometryType),
    In k K /\ p = Session.prompt_for k q /\ trim_is_empty q = false.

Definition prompts_from (K : list GeometryType) (s : State) : Prop :=
  In (ctx_type (context s)) K
  /\ Forall (turn_from K) (turns s)
  /\ Forall (prompt_from K) (sent s).

End Mounted.

(** A question sent for the cube whose timer runs out after the context
    became a frustum. *)
Definition question_across_contexts : list Mounted.Event :=
  [Mounted.OfSession (Workspace.InputChange "and the area?");
   Mounted.OfSession (Workspace.KeyDown "Enter");
   Mounted.ContextChanges (mkCtx frustum "User sketched a frustum.");
   Mounted.OfSession (Workspace.TimerFires 0)].

(* ================================================================== *)
(** ** App: navigation between the views *)
(* ================================================================== *)

Module App.

Inductive ViewState := landing | dashboard | scan | sketchpad | workspace.

Inductive Mode := mode_scan | mode_sketch.

Definition ViewState_eqb (a b : ViewState) : bool :=
  match a, b with
  | landing, landing | dashboard, dashboard | scan, scan
  | sketchpad, sketchpad | workspace, workspace => true
  | _, _ => false
  end.

(** The three [useState] cells of [App] and the analysis timers not yet
    run, each with the context it will install. *)
Record State := mk {
  view : ViewState;
  loading : bool;
  problemContext : ProblemContext;
  timers : list ProblemContext
}.

Definition init : State := mk landing false (mkCtx default "") [].

Definition navigateTo (target : ViewState) (s : State) : State :=
  mk target (loading s) (problemContext s) (timers s).

Definition handleDashboardSelect (mode : Mode) (s : State) : State :=
  match mode with
  | mode_scan => navigateTo scan s
  | mode_sketch => navigateTo sketchpad s
  end.

Definition handleAnalyze (context : ProblemContext) (s : State) : State :=
  mk (view s) true (problemContext s) (push (timers s) context).

(** The oldest analysis timer runs. *)
Definition timer_fires (s : State) : State :=
  match timers s with
  | [] => s
  | context :: rest => navigateTo workspace (mk (view s) false context rest)
  end.

(** The header logo (rendered unless the sketch pad is shown), the start
    button of the landing view, the two cards of the dashboard, the back
    buttons of the scan view and the sketch pad, a call of [onAnalyze] or
    [onComplete] by a child view (the sketch pad calls from a timer of its
    own, which may run after the view was left), and an analysis timer
    running out. *)
Inductive Event :=
| ClickLogo
| Start
| Select (mode : Mode)
| Back
| Analyze (context : ProblemContext)
| TimerFires.

Definition step (s : State) (e : Event) : State :=
  match e with
  | ClickLogo => if ViewState_eqb (view s) sketchpad then s else navigateTo landing s
  | Start => if ViewState_eqb (view s) landing then navigateTo dashboard s else s
  | Select mode =>
      if ViewState_eqb (view s) dashboard then handleDashboardSelect mode s else s
  | Back =>
      if ViewState_eqb (view s) scan || ViewState_eqb (view s) sketchpad
      then navigateTo dashboard s else s
  | Analyze context => handleAnalyze context s
  | TimerFires => timer_fires s
  end.

Definition run (s : State) (es : list Event) : State := fold_left step es s.

Definition is_navigation (e : Event) : bool :=
  match e with
  | Analyze _ | TimerFires => false
  | _ => true
  end.

Definition is_timer (e : Event) : bool :=
  match e with TimerFires => true | _ => false end.

End App.

(* ================================================================== *)
(** * Properties *)
(* ================================================================== *)

(** ** Strings and lists *)

Lemma str_app_assoc (a b c : string) : (a ++ b) ++ c = a ++ b ++ c.
Proof. induction a as [|x a IH]; simpl; [reflexivity | now rewrite IH]. Qed.

Lemma str_app_nil_r (a : string) : a ++ "" = a.
Proof. induction a as [|x a IH]; simpl; [reflexivity | now rewrite IH]. Qed.

(** Bring both sides of an equation between concatenations to right-nested
    form. *)
Ltac string_assoc :=
  repeat first [rewrite str_app_assoc | progress cbn [append]].

Lemma startsWith_app (a b : string) : startsWith (a ++ b) a = true.
Proof.
  induction a as [|x a IH]; simpl; [reflexivity|].
  now rewrite Ascii.eqb_refl, IH.
Qed.

Lemma includes_prefix (a b : string) : includes (a ++ b) a = true.
Proof.
  destruct a as [|x a]; [destruct b; reflexivity|].
  simpl. now rewrite Ascii.eqb_refl, startsWith_app.
Qed.

Lemma skipn_cons_nth {A} (k : nat) (l : list A) (x d : A) (r : list A) :
  skipn k l = x :: r -> nth k l d = x /\ skipn (S k) l = r.
Proof.
  revert l; induction k as [|k IH]; intros [|y l] E; simpl in E; try discriminate.
  - inversion E; subst; split; reflexivity.
  - destruct (IH l E) as [E1 E2]. split; [exact E1 | exact E2].
Qed.

Lemma nth_length_pred_last {A} (l : list A) (d : A) :
  nth (List.length l - 1) l d = last l d.
Proof.
  induction l as [|x l IH]; [reflexivity|].
  destruct l as [|y l]; [reflexivity|].
  replace (List.length (x :: y :: l) - 1)%nat with (S (List.length (y :: l) - 1))
    by (simpl; lia).
  exact IH.
Qed.

Lemma last_nonempty_default {A} (x : A) (l : list A) (d d' : A) :
  last (x :: l) d = last (x :: l) d'.
Proof.
  revert x; induction l as [|y l IH]; intros x; [reflexivity|].
  change (last (y :: l) d = last (y :: l) d'). apply IH.
Qed.

(** ** Context retriever *)

Lemma retrieveContext_flags (query : string) (type : GeometryType) :
  retrieveContext query type =
  context_for_flags type (asks_volume (toLowerCase query))
    (asks_area (toLowerCase query)) (asks_other (toLowerCase query)).
Proof.
  unfold retrieveContext, retrievedInfo, context_for_flags.
  destruct (asks_volume _), (asks_area _), (asks_other _); reflexivity.
Qed.

(** C2, as the code has it: for every query and kind the result contains
    the definition line (it starts with it) and is not empty, and the
    properties line is appended exactly when the query matches none of the
    keywords of steps 3 to 5. A step whose keyword matches always appends
    its line, also when its formula filter selects nothing. *)
Theorem retrieveContext_definition_and_fallback (query : string) (type : GeometryType) :
  startsWith (retrieveContext query type) (definition_line type) = true
  /\ includes (retrieveContext query type) (definition_line type) = true
  /\ retrieveContext query type <> ""
  /\ existsb (String.eqb (properties_line type)) (retrievedInfo query type)
     = negb (keyword_hit query)
  /\ includes (retrieveContext query type) "Key Properties: "
     = negb (keyword_hit query)
  /\ List.length (retrievedInfo query type)
     = (1 + (if asks_volume (toLowerCase query) then 1 else 0)
          + (if asks_area (toLowerCase query) then 1 else 0)
          + (if asks_other (toLowerCase query) then 1 else 0)
          + (if keyword_hit query then 0 else 1))%nat.
Proof.
  unfold keyword_hit, retrieveContext, retrievedInfo, definition_line, properties_line.
  destruct (asks_volume _), (asks_area _), (asks_other _), type;
    vm_compute; repeat split; discriminate.
Qed.

(** C2, the claim as the specification words it fails: the query
    "surface area" on the complex kind matches an area keyword, the filter
    for "Area" selects no formula of that entry, and the result is the
    definition and an empty formula line, without the properties. *)
Lemma retrieveContext_empty_filter_no_fallback :
  asks_area (toLowerCase "surface area") = true
  /\ filter (fun f => includes f "Area") (formulas (knowledge_of default)) = []
  /\ retrieveContext "surface area" default
     = "Definition: A complex or general geometric shape." ++ newline ++ "Relevant Formulas: "
  /\ includes (retrieveContext "surface area" default) "Key Properties" = false
  /\ existsb (String.eqb (properties_line default)) (retrievedInfo "surface area" default) = false.
Proof. vm_compute. repeat split. Qed.

(** The query enters the result only through the three keyword tests. *)
Lemma retrieveContext_depends_on_keyword_tests (q1 q2 : string) (type : GeometryType) :
  asks_volume (toLowerCase q1) = asks_volume (toLowerCase q2) ->
  asks_area (toLowerCase q1) = asks_area (toLowerCase q2) ->
  asks_other (toLowerCase q1) = asks_other (toLowerCase q2) ->
  retrieveContext q1 type = retrieveContext q2 type.
Proof.
  intros Hv Ha Ho. rewrite !retrieveContext_flags. now rewrite Hv, Ha, Ho.
Qed.

(** C7: two calls of the retriever with the same query and the same kind
    return the same string; the result is a function of the kind and of the
    three keyword tests on the query, and of nothing else. *)
Theorem retrieveContext_deterministic (q1 q2 : string) (k1 k2 : GeometryType) :
  q1 = q2 -> k1 = k2 ->
  retrieveContext q1 k1 = retrieveContext q2 k2
  /\ retrieveContext q1 k1 =
     context_for_flags k2 (asks_volume (toLowerCase q2))
       (asks_area (toLowerCase q2)) (asks_other (toLowerCase q2)).
Proof.
  intros Hq Hk. split.
  - apply eq_trans with (retrieveContext q2 k1).
    + apply retrieveContext_depends_on_keyword_tests; now rewrite Hq.
    + now rewrite Hk.
  - rewrite Hq, Hk. apply retrieveContext_flags.
Qed.

Lemma retrieveContext_deterministic_witness :
  retrieveContext "What is the volume?" cube = retrieveContext "What is the volume?" cube
  /\ retrieveContext "What is the volume?" cube =
     context_for_flags cube (asks_volume (toLowerCase "What is the volume?"))
       (asks_area (toLowerCase "What is the volume?"))
       (asks_other (toLowerCase "What is the volume?")).
Proof.
  apply (retrieveContext_deterministic "What is the volume?" "What is the volume?" cube cube);
    reflexivity.
Defined.

(** The three examples of the specification's test list. *)
Example retrieve_volume_cube :
  includes (retrieveContext "What is the volume?" cube) "Volume = s³" = true
  /\ includes (retrieveContext "What is the volume?" cube) "Surface Area" = false.
Proof. vm_compute. split; reflexivity. Qed.

Example retrieve_generic_pyramid :
  includes (retrieveContext "tell me about it" pyramid) (properties_line pyramid) = true.
Proof. vm_compute. reflexivity. Qed.

(** ** Stroke smoother *)

Section SmootherFacts.

Context {num : Type} `{JSNumber num}.

Local Abbreviation Point := (@Point num).

Lemma smooth_loop_quads (points : list Point) (p0 : Point) :
  forall (rest : list Point) (k : nat) (cp : Point) (d : string),
    skipn k points = cp :: rest ->
    fold_left (smooth_step points p0) (seq k (List.length rest)) d
    = d ++ quads_text (interior_quads cp rest).
Proof.
  induction rest as [|next rest IH]; intros k cp d E; simpl.
  - now rewrite str_app_nil_r.
  - destruct (skipn_cons_nth k points cp p0 (next :: rest) E) as [Ecp E'].
    destruct (skipn_cons_nth (S k) points next p0 rest E') as [Enext _].
    rewrite (IH (S k) next _ E').
    unfold smooth_step. rewrite Nat.add_1_r, Ecp, Enext.
    unfold serialize_point, midpoint; cbn [serialize_segment quads_text fold_right fst snd].
    string_assoc. reflexivity.
Qed.

Lemma serialize_cons (fmt : num -> string) (s : Segment) (c : list Segment) :
  c <> [] ->
  serialize fmt (s :: c) = serialize_segment fmt s ++ " " ++ serialize fmt c.
Proof. destruct c; [congruence | reflexivity]. Qed.

Lemma serialize_quads_then_line (qs : list Segment) (p : Point) :
  " " ++ serialize toFixed2 (qs ++ [LineTo p])%list
  = quads_text qs ++ " L " ++ serialize_point toFixed2 p.
Proof.
  induction qs as [|q qs IH].
  - reflexivity.
  - change ((q :: qs) ++ [LineTo p])%list with (q :: (qs ++ [LineTo p]))%list.
    rewrite serialize_cons by (destruct qs; discriminate).
    cbn [quads_text fold_right]. fold (quads_text qs).
    rewrite !str_app_assoc, <- IH. reflexivity.
Qed.

(** The path data of a stroke of at least three points. *)
Lemma getSmoothedPath_long (p0 p1 p2 : Point) (rest : list Point) :
  getSmoothedPath (p0 :: p1 :: p2 :: rest)
  = serialize toFixed2 (spec_curve (p0 :: p1 :: p2 :: rest)).
Proof.
  unfold getSmoothedPath.
  set (points := p0 :: p1 :: p2 :: rest).
  replace (List.length points <? 3)%nat with false by reflexivity.
  replace (List.length points - 2)%nat with (List.length (p2 :: rest))
    by (simpl; lia).
  rewrite (smooth_loop_quads points p0 (p2 :: rest) 1 p1) by reflexivity.
  rewrite nth_length_pred_last.
  replace (last points p0) with (last (p2 :: rest) p1)
    by (unfold points; apply (last_nonempty_default p2 rest p1 p0)).
  unfold spec_curve, points.
  rewrite serialize_cons by (simpl; discriminate).
  rewrite serialize_quads_then_line.
  unfold serialize_segment, serialize_point.
  string_assoc. reflexivity.
Qed.

(** The path data of a stroke of one or two points. *)
Lemma getSmoothedPath_short (points : list Point) :
  (1 <= List.length points <= 2)%nat ->
  getSmoothedPath points = serialize num_toString (spec_curve points).
Proof.
  destruct points as [|p [|q [|r rest]]]; simpl List.length; intros Hl; try lia.
  - reflexivity.
  - unfold getSmoothedPath, serialize, spec_curve, point_join, serialize_segment,
      serialize_point; cbn [map join List.length Nat.ltb Nat.leb fst snd].
    string_assoc. reflexivity.
Qed.

Lemma curve_end_app_line (c : list Segment) (p : Point) :
  curve_end (c ++ [LineTo p])%list = Some p.
Proof.
  destruct c as [|s c]; [reflexivity|].
  simpl. destruct c as [|s' c]; [reflexivity|].
  change (s' :: c ++ [LineTo p])%list with ((s' :: c) ++ [LineTo p])%list.
  now rewrite last_last.
Qed.

Lemma interior_quads_indexed (points : list Point) (d : Point) :
  forall (rest : list Point) (k : nat) (cp : Point),
    skipn k points = cp :: rest ->
    interior_quads cp rest
    = map (fun i => QuadTo (nth i points d)
                      (midpoint (nth i points d) (nth (i + 1) points d)))
        (seq k (List.length rest)).
Proof.
  induction rest as [|next rest IH]; intros k cp E; [reflexivity|].
  destruct (skipn_cons_nth k points cp d (next :: rest) E) as [Ecp E'].
  destruct (skipn_cons_nth (S k) points next d rest E') as [Enext _].
  cbn [interior_quads List.length seq map].
  rewrite Nat.add_1_r, Ecp, Enext. f_equal. apply IH, E'.
Qed.

Lemma spec_curve_indexed (p0 p1 p2 : Point) (rest : list Point) :
  spec_curve (p0 :: p1 :: p2 :: rest) = indexed_curve (p0 :: p1 :: p2 :: rest) p0.
Proof.
  unfold spec_curve, indexed_curve.
  set (points := p0 :: p1 :: p2 :: rest).
  rewrite nth_length_pred_last.
  replace (List.length points - 2)%nat with (List.length (p2 :: rest))
    by (simpl; lia).
  rewrite <- (interior_quads_indexed points p0 (p2 :: rest) 1 p1) by reflexivity.
  replace (last points p0) with (last (p2 :: rest) p1)
    by (unfold points; apply (last_nonempty_default p2 rest p1 p0)).
  reflexivity.
Qed.

(** C4: the smoother's result is the path data of the curve the
    specification describes. No point gives the empty string; one or two
    points give the straight chain through exactly these points; three or
    more points give a curve that starts at point 0, has for each interior
    point [i] a quadratic segment with control point [i] ending at the
    midpoint of points [i] and [i+1], and closes with a straight segment
    to the last point, so that it starts at the first and ends at the last
    raw point. *)
Theorem getSmoothedPath_spec_curve :
  getSmoothedPath [] = ""
  /\ (forall p : Point,
        getSmoothedPath [p] = serialize num_toString [MoveTo p])
  /\ (forall p q : Point,
        getSmoothedPath [p; q] = serialize num_toString [MoveTo p; LineTo q])
  /\ (forall (p0 p1 p2 : Point) (rest : list Point),
        getSmoothedPath (p0 :: p1 :: p2 :: rest)
        = serialize toFixed2 (indexed_curve (p0 :: p1 :: p2 :: rest) p0)
        /\ indexed_curve (p0 :: p1 :: p2 :: rest) p0
           = spec_curve (p0 :: p1 :: p2 :: rest)
        /\ curve_start (indexed_curve (p0 :: p1 :: p2 :: rest) p0) = Some p0
        /\ curve_end (indexed_curve (p0 :: p1 :: p2 :: rest) p0)
           = Some (last (p0 :: p1 :: p2 :: rest) p0)).
Proof.
  split; [reflexivity|].
  split; [intros p; apply (getSmoothedPath_short [p]); simpl; lia|].
  split; [intros p q; apply (getSmoothedPath_short [p; q]); simpl; lia|].
  intros p0 p1 p2 rest.
  rewrite <- spec_curve_indexed.
  split; [apply getSmoothedPath_long|].
  split; [reflexivity|].
  split; [reflexivity|].
  unfold spec_curve.
  change (MoveTo p0 :: interior_quads p1 (p2 :: rest) ++ [LineTo (last (p2 :: rest) p1)])%list
    with ((MoveTo p0 :: interior_quads p1 (p2 :: rest)) ++ [LineTo (last (p2 :: rest) p1)])%list.
  rewrite curve_end_app_line. f_equal.
  apply (last_nonempty_default p2 rest p1 p0).
Qed.

(** C5, as the code has it: with three or more points every coordinate
    of the path data is printed by [toFixed(2)]; with one or two points
    the coordinates are printed by the default number conversion, not
    rounded. *)
Theorem getSmoothedPath_rounds_from_three_points (points : list Point) :
  (3 <= List.length points)%nat ->
  all_coordinates_toFixed2 points
  /\ forall short : list Point,
       (1 <= List.length short <= 2)%nat ->
       getSmoothedPath short = serialize num_toString (spec_curve short).
Proof.
  intros Hl. split.
  - destruct points as [|p0 [|p1 [|p2 rest]]]; simpl in Hl; try lia.
    apply getSmoothedPath_long.
  - apply getSmoothedPath_short.
Qed.

End SmootherFacts.

Example getSmoothedPath_four_points :
  getSmoothedPath [pt 1 2; pt 3 5; pt 10 (-7); pt 0 0]
  = "M 1.00 2.00 Q 3.00 5.00 6.50 -1.00 Q 10.00 -7.00 5.00 -3.50 L 0.00 0.00".
Proof. vm_compute. reflexivity. Qed.

Lemma getSmoothedPath_rounds_from_three_points_witness :
  all_coordinates_toFixed2 [pt 1 2; pt 3 5; pt 10 (-7)]
  /\ forall short : list (@Point Dyadic.dyadic),
       (1 <= List.length short <= 2)%nat ->
       getSmoothedPath short = serialize num_toString (spec_curve short).
Proof.
  apply (getSmoothedPath_rounds_from_three_points [pt 1 2; pt 3 5; pt 10 (-7)]).
  simpl. lia.
Defined.

(** C5, the claim as the specification words it fails: the one-point stroke
    at (0.125, 2) is written with its three decimals, where [toFixed(2)]
    would write 0.13 and 2.00. *)
Lemma getSmoothedPath_short_stroke_not_rounded :
  getSmoothedPath [(Dyadic.mk 1 3, Dyadic.of_Z 2)] = "M 0.125 2"
  /\ serialize toFixed2 (spec_curve [(Dyadic.mk 1 3, Dyadic.of_Z 2)]) = "M 0.13 2.00"
  /\ ~ all_coordinates_toFixed2 [(Dyadic.mk 1 3, Dyadic.of_Z 2)].
Proof.
  split; [vm_compute; reflexivity|].
  split; [vm_compute; reflexivity|].
  unfold all_coordinates_toFixed2. vm_compute. discriminate.
Qed.

(** ** Runs of a view *)

(** A property established at the start and preserved by every permitted
    event holds at the end of the run. *)
Lemma run_invariant {S E : Type} (step : S -> E -> S) (permitted : E -> bool)
    (Inv : S -> Prop) :
  (forall s e, permitted e = true -> Inv s -> Inv (step s e)) ->
  forall (es : list E) (s : S),
    forallb permitted es = true -> Inv s -> Inv (fold_left step es s).
Proof.
  intros Preserve. induction es as [|e es IH]; intros s Hes Hs; [exact Hs|].
  simpl in Hes. apply andb_true_iff in Hes as [He Hes].
  simpl. apply IH; [exact Hes | apply Preserve; assumption].
Qed.

(** ** Sketch pad *)

Section SketchpadFacts.

Context {num : Type} `{JSNumber num}.

Local Abbreviation Sketchpad := (Sketchpad num).
Local Abbreviation SketchEvent := (SketchEvent num).

(** Case analysis on the guards of the handlers. *)
Ltac handler_cases :=
  repeat match goal with
    | |- context [if ?b then _ else _] => destruct b eqn:?
    | |- context [match ?l with [] => _ | _ :: _ => _ end] => destruct l eqn:?
    end.

(** What each event does to the selection and to the committed paths. *)
Lemma selectedTemplate_step (s : Sketchpad) (e : SketchEvent) :
  selectedTemplate (sketch_step s e)
  = match e with
    | ClickTemplate t => template_type t
    | ClickClear => default
    | _ => selectedTemplate s
    end.
Proof.
  destruct e; cbn [sketch_step];
    unfold handlePointerDown, handlePointerMove, handlePointerUp, addTemplate,
      clearCanvas, undoLast, handleMagic, handleRecognitionConfirm,
      handleRecognitionCancel, timer_fires;
    handler_cases; reflexivity.
Qed.

Lemma no_template_path_push (l : list (string * Origin)) (d : string) (o : Origin) :
  forallb (fun c => is_freehand (snd c)) (push l (d, o))
  = forallb (fun c => is_freehand (snd c)) l && is_freehand o.
Proof. unfold push. rewrite forallb_app. simpl. now rewrite andb_true_r. Qed.

Lemma no_template_path_step (s : Sketchpad) (e : SketchEvent) :
  no_template_path (sketch_step s e)
  = match e with
    | ClickTemplate _ => false
    | ClickClear => true
    | ClickUndo => no_template_path (undoLast s)
    | _ => no_template_path s
    end.
Proof.
  unfold no_template_path.
  destruct e; cbn [sketch_step];
    unfold handlePointerDown, handlePointerMove, handlePointerUp, addTemplate,
      clearCanvas, handleMagic, handleRecognitionConfirm,
      handleRecognitionCancel, timer_fires;
    handler_cases; cbn; rewrite ?no_template_path_push; cbn;
    rewrite ?andb_true_r, ?andb_false_r; reflexivity.
Qed.

Lemma no_template_path_undo (s : Sketchpad) :
  no_template_path s = true -> no_template_path (undoLast s) = true.
Proof.
  unfold no_template_path, undoLast. cbn.
  destruct (committed s) as [|c l] using rev_ind; [auto|].
  rewrite removelast_last, forallb_app. intros Hf.
  apply andb_true_iff in Hf. tauto.
Qed.

Lemma template_type_not_default (t : TemplateName) : template_type t <> default.
Proof. destruct t; discriminate. Qed.

Lemma kind_matches_paths_step (s : Sketchpad) (stale : bool) (e : SketchEvent) :
  kind_matches_paths s stale ->
  kind_matches_paths (sketch_step s e)
    match e with
    | ClickUndo => stale || removes_last_template s
    | ClickClear | ClickTemplate _ => false
    | _ => stale
    end.
Proof.
  unfold kind_matches_paths, removes_last_template. intros Hk.
  rewrite selectedTemplate_step, no_template_path_step.
  pose proof (no_template_path_undo s) as Hu.
  destruct e; try exact Hk.
  - (* undo *)
    destruct stale.
    + destruct Hk as [Hd Hn]. cbn [orb]. split; [exact Hd | now apply Hu].
    + destruct Hk as [Hdef Htpl]. cbn [orb].
      destruct (no_template_path s) eqn:En.
      * rewrite (Hu eq_refl). cbn. split; [intros _; now apply Hdef | discriminate].
      * cbn [negb andb]. destruct (no_template_path (undoLast s)).
        -- split; [now apply Htpl | reflexivity].
        -- split; [discriminate | intros _; now apply Htpl].
  - (* clear *)
    split; [reflexivity | discriminate].
  - (* template *)
    split; [discriminate | intros _; apply template_type_not_default].
Qed.

Lemma kind_matches_paths_run (es : list SketchEvent) :
  forall (s : Sketchpad) (stale : bool),
    kind_matches_paths s stale ->
    kind_matches_paths (sketch_run s es) (stale_kind s stale es).
Proof.
  induction es as [|e es IH]; intros s stale Hk; [exact Hk|].
  change (sketch_run s (e :: es)) with (sketch_run (sketch_step s e) es).
  cbn [stale_kind]. apply IH. now apply kind_matches_paths_step.
Qed.

Lemma kind_matches_paths_init : kind_matches_paths (sketchpad_init : Sketchpad) false.
Proof. split; [reflexivity | discriminate]. Qed.

(** The condition of the next theorem is the exact one: in a run that ends
    with a stale kind, no path is a template and the selected kind is not
    [default]. *)
Lemma stale_kind_is_exact (es : list SketchEvent) :
  stale_kind sketchpad_init false es = true ->
  no_template_path (sketch_run sketchpad_init es) = true
  /\ selectedTemplate (sketch_run sketchpad_init es) <> default.
Proof.
  intros Hs. pose proof (kind_matches_paths_run es _ _ kind_matches_paths_init) as Hk.
  rewrite Hs in Hk. destruct Hk as [Hd Hn]. split; assumption.
Qed.

Lemma undo_free_runs_are_not_stale (es : list SketchEvent) :
  forall (s : Sketchpad),
    forallb (fun e => negb (is_undo e)) es = true ->
    stale_kind s false es = false.
Proof.
  induction es as [|e es IH]; intros s Hes; [reflexivity|].
  cbn in Hes. apply andb_true_iff in Hes as [He Hes].
  cbn [stale_kind]. destruct e; try discriminate He; now apply IH.
Qed.

(** C1, as the code has it: in every run from the empty canvas (presses,
    moves, releases, template insertions, undos, clears and the rest) the
    selected kind is [default] whenever no committed path came from a
    template (in particular when some path is free-hand and none is a
    template), unless an undo has removed the only template path left on
    the canvas and neither a clear nor a template insertion has followed;
    inserting a template sets the selected kind to the template's kind at
    once; undo leaves the selected kind as it is; clear resets it. *)
Theorem selectedTemplate_default_without_template (es : list SketchEvent) :
  stale_kind sketchpad_init false es = false ->
  no_template_path (sketch_run sketchpad_init es) = true ->
  selectedTemplate (sketch_run sketchpad_init es) = default
  /\ (forall (s : Sketchpad) (t : TemplateName),
        selectedTemplate (sketch_step s (ClickTemplate t)) = template_type t)
  /\ (forall s : Sketchpad,
        selectedTemplate (sketch_step s ClickUndo) = selectedTemplate s)
  /\ (forall s : Sketchpad,
        selectedTemplate (sketch_step s ClickClear) = default).
Proof.
  intros Hes Hn. split; [|repeat split; intros; apply selectedTemplate_step].
  pose proof (kind_matches_paths_run es _ _ kind_matches_paths_init) as Hk.
  rewrite Hes in Hk. destruct Hk as [Hdef _]. now apply Hdef.
Qed.

Lemma unconfirmed_step (s : Sketchpad) (e : SketchEvent) :
  negb (is_confirm_or_template e) = true ->
  selectedTemplate s = default ->
  selectedTemplate (sketch_step s e) = default
  /\ emitted_or_scheduled (sketch_step s e) = emitted_or_scheduled s
  /\ (timers s = [] -> timers (sketch_step s e) = []).
Proof.
  unfold emitted_or_scheduled. intros He Hd.
  destruct e; try discriminate He; cbn [sketch_step];
    unfold handlePointerDown, handlePointerMove, handlePointerUp,
      clearCanvas, undoLast, handleMagic, handleRecognitionCancel, timer_fires;
    rewrite ?Hd; cbn [GeometryType_eqb];
    handler_cases; cbn; unfold push;
    repeat match goal with E : timers s = _ |- _ => rewrite E; clear E end;
    repeat split; try reflexivity; try assumption; try discriminate;
    try (rewrite <- app_assoc; reflexivity); auto.
Qed.

Lemma unconfirmed_run (es : list SketchEvent) :
  forall s : Sketchpad,
    forallb (fun e => negb (is_confirm_or_template e)) es = true ->
    selectedTemplate s = default ->
    emitted_or_scheduled (sketch_run s es) = emitted_or_scheduled s
    /\ (timers s = [] -> timers (sketch_run s es) = []).
Proof.
  induction es as [|e es IH]; intros s Hes Hs; [split; [reflexivity | auto]|].
  simpl in Hes. apply andb_true_iff in Hes as [He Hes].
  destruct (unconfirmed_step s e He Hs) as (Hs' & Hc & Ht).
  destruct (IH (sketch_step s e) Hes Hs') as [Hc' Ht'].
  change (sketch_run s (e :: es)) with (sketch_run (sketch_step s e) es).
  split; [congruence | auto].
Qed.

(** The gate on the selected kind: on a canvas whose selected kind is
    [default], invoking analyze schedules and emits no context; whatever
    follows (drawing, undo, clear, further clicks on solve, cancel, time
    passing), no context is scheduled or emitted beyond those already
    pending before, until a confirmation is made in the modal or a template
    is inserted; with nothing pending before, nothing is emitted at all.
    And analyze followed by cancel leaves the paths, the stroke in
    progress, the selection, the solving flag and the emitted contexts as
    they were. *)
Theorem default_kind_waits_for_confirmation
    (s : Sketchpad) (es : list SketchEvent) :
  selectedTemplate s = default ->
  forallb (fun e => negb (is_confirm_or_template e)) es = true ->
  timers (handleMagic s) = timers s /\ completed (handleMagic s) = completed s
  /\ emitted_or_scheduled (sketch_run s (ClickSolve :: es)) = emitted_or_scheduled s
  /\ (timers s = [] ->
      timers (sketch_run s (ClickSolve :: es)) = []
      /\ completed (sketch_run s (ClickSolve :: es)) = completed s)
  /\ sketch_step (sketch_step s ClickSolve) ModalCancel = setShowRecognition false s
  /\ sketch_step (handleMagic s) ModalCancel = setShowRecognition false s.
Proof.
  intros Hd Hes.
  assert (Hm : handleMagic s = s \/ handleMagic s = setShowRecognition true s).
  { unfold handleMagic. rewrite Hd. cbn [GeometryType_eqb].
    destruct (_ =? _)%nat; auto. }
  split; [destruct Hm as [-> | ->]; reflexivity|].
  split; [destruct Hm as [-> | ->]; reflexivity|].
  destruct (unconfirmed_run (ClickSolve :: es) s) as [Hc' Ht']; [exact Hes | exact Hd |].
  split; [exact Hc'|].
  split.
  { intros Ht. specialize (Ht' Ht). split; [exact Ht'|].
    unfold emitted_or_scheduled in Hc'. rewrite Ht', Ht, !app_nil_r in Hc'. exact Hc'. }
  assert (Hcancel : forall s' : Sketchpad,
             s' = s \/ s' = setShowRecognition true s ->
             sketch_step s' ModalCancel = setShowRecognition false s).
  { intros s' [-> | ->]; destruct s as [c p so sh se ti co];
      cbn; destruct sh; reflexivity. }
  split; apply Hcancel; [|exact Hm].
  cbn [sketch_step]. destruct (_ || _); [left; reflexivity | exact Hm].
Qed.

End SketchpadFacts.

Lemma selectedTemplate_default_without_template_witness :
  selectedTemplate
    (sketch_run sketchpad_init
       [ClickTemplate CUBE; PointerDown (pt 0 0); PointerMove 1 (pt 10 0); PointerUp;
        ClickUndo; ClickUndo; ClickClear;
        PointerDown (pt 0 0); PointerMove 1 (pt 10 0); PointerUp; ClickUndo;
        PointerDown (pt 5 5); PointerMove 1 (pt 10 0); PointerUp]) = default
  /\ (forall (s : Sketchpad Dyadic.dyadic) (t : TemplateName),
        selectedTemplate (sketch_step s (ClickTemplate t)) = template_type t)
  /\ (forall s : Sketchpad Dyadic.dyadic,
        selectedTemplate (sketch_step s ClickUndo) = selectedTemplate s)
  /\ (forall s : Sketchpad Dyadic.dyadic,
        selectedTemplate (sketch_step s ClickClear) = default).
Proof.
  apply (selectedTemplate_default_without_template
           [ClickTemplate CUBE; PointerDown (pt 0 0); PointerMove 1 (pt 10 0); PointerUp;
            ClickUndo; ClickUndo; ClickClear;
            PointerDown (pt 0 0); PointerMove 1 (pt 10 0); PointerUp; ClickUndo;
            PointerDown (pt 5 5); PointerMove 1 (pt 10 0); PointerUp]);
    reflexivity.
Defined.

(** C1, the claim as the specification words it fails: insert the cube
    template, undo it, draw a stroke. The only committed path is free-hand,
    none came from a template, and the selected kind is still [cube]. *)
Lemma selectedTemplate_stale_after_undo :
  some_freehand_path
    (sketch_run sketchpad_init
       [ClickTemplate CUBE; ClickUndo;
        PointerDown (pt 0 0); PointerMove 1 (pt 10 0); PointerUp]) = true
  /\ no_template_path
       (sketch_run sketchpad_init
          [ClickTemplate CUBE; ClickUndo;
           PointerDown (pt 0 0); PointerMove 1 (pt 10 0); PointerUp]) = true
  /\ paths
       (sketch_run sketchpad_init
          [ClickTemplate CUBE; ClickUndo;
           PointerDown (pt 0 0); PointerMove 1 (pt 10 0); PointerUp])
     = ["M 0 0 L 10 0"]
  /\ selectedTemplate
       (sketch_run sketchpad_init
          [ClickTemplate CUBE; ClickUndo;
           PointerDown (pt 0 0); PointerMove 1 (pt 10 0); PointerUp]) = cube.
Proof. vm_compute. repeat split. Qed.

Lemma default_kind_waits_for_confirmation_witness :
  timers (handleMagic one_stroke) = timers one_stroke
  /\ completed (handleMagic one_stroke) = completed one_stroke
  /\ emitted_or_scheduled
       (sketch_run one_stroke
          [ClickSolve; TimerFires; ModalCancel; ClickUndo; ClickSolve; TimerFires])
     = emitted_or_scheduled one_stroke
  /\ (timers one_stroke = [] ->
      timers
        (sketch_run one_stroke
           [ClickSolve; TimerFires; ModalCancel; ClickUndo; ClickSolve; TimerFires]) = []
      /\ completed
           (sketch_run one_stroke
              [ClickSolve; TimerFires; ModalCancel; ClickUndo; ClickSolve; TimerFires])
         = completed one_stroke)
  /\ sketch_step (sketch_step one_stroke ClickSolve) ModalCancel
     = setShowRecognition false one_stroke
  /\ sketch_step (handleMagic one_stroke) ModalCancel
     = setShowRecognition false one_stroke.
Proof.
  apply (default_kind_waits_for_confirmation one_stroke
           [TimerFires; ModalCancel; ClickUndo; ClickSolve; TimerFires]);
    reflexivity.
Defined.

(** C6, the canvas on which the gate is passed by: the cube template is
    inserted and undone, then a stroke is drawn. The only committed path is
    free-hand and none came from a template; a click on solve opens no
    modal, and when the timer runs out the context of a cube is emitted
    though nothing was confirmed. *)
Theorem stale_kind_skips_confirmation :
  some_freehand_path
    (sketch_run sketchpad_init
       [ClickTemplate CUBE; ClickUndo;
        PointerDown (pt 0 0); PointerMove 1 (pt 10 0); PointerUp]) = true
  /\ no_template_path
       (sketch_run sketchpad_init
          [ClickTemplate CUBE; ClickUndo;
           PointerDown (pt 0 0); PointerMove 1 (pt 10 0); PointerUp]) = true
  /\ showRecognition
       (sketch_run sketchpad_init
          [ClickTemplate CUBE; ClickUndo;
           PointerDown (pt 0 0); PointerMove 1 (pt 10 0); PointerUp;
           ClickSolve]) = false
  /\ completed
       (sketch_run sketchpad_init
          [ClickTemplate CUBE; ClickUndo;
           PointerDown (pt 0 0); PointerMove 1 (pt 10 0); PointerUp;
           ClickSolve; TimerFires])
     = [mkCtx cube "User sketched a cube and wants to analyze it."]
  /\ showRecognition
       (sketch_run sketchpad_init
          [PointerDown (pt 0 0); PointerMove 1 (pt 10 0); PointerUp;
           ClickTemplate CUBE; ClickClear;
           PointerDown (pt 0 0); PointerMove 1 (pt 10 0); PointerUp;
           ClickSolve]) = true.
Proof. vm_compute. repeat split. Qed.

(** The end-to-end scenario of the specification: three points drawn,
    analyze, the modal opens, frustum picked, the context is emitted. *)
Example sketch_confirm_frustum :
  completed
    (sketch_run sketchpad_init
       [PointerDown (pt 0 0); PointerMove 1 (pt 10 0); PointerMove 1 (pt 10 4);
        PointerUp; ClickSolve; ModalConfirm frustum; TimerFires])
  = [mkCtx frustum "User sketched a frustum."]
  /\ showRecognition
       (sketch_run sketchpad_init
          [PointerDown (pt 0 0); PointerMove 1 (pt 10 0); PointerMove 1 (pt 10 4);
           PointerUp; ClickSolve]) = true.
Proof. vm_compute. split; reflexivity. Qed.

(** ** Scan view *)

Module ScanViewFacts.
Import ScanView.

Lemma Forall_push {A} (Q : A -> Prop) (l : list A) (x : A) :
  Forall Q l -> Q x -> Forall Q (push l x).
Proof. intros Hl Hx. apply Forall_app. split; [exact Hl | constructor; [exact Hx | constructor]]. Qed.

Lemma typed_or_example_step (s : State) (e : Event) :
  typed_or_example s -> typed_or_example (step s e).
Proof.
  unfold typed_or_example. intros Hs.
  destruct e as [ty | f | | v | | i]; cbn [step].
  - unfold handleDrag. destruct (_ || _); [exact Hs|]. destruct (String.eqb _ _); exact Hs.
  - unfold handleDrop. destruct f; exact Hs.
  - exact Hs.
  - exact Hs.
  - unfold handleAnalyze. destruct (truthy _); [|exact Hs].
    destruct (trim_is_empty _); [exact Hs|].
    apply Forall_push; [exact Hs | left; reflexivity].
  - destruct (nth_error examples i) as [ex|] eqn:E; [|exact Hs].
    apply Forall_push; [exact Hs | right; eapply nth_error_In; exact E].
Qed.

Lemma typed_only_step (s : State) (e : Event) :
  negb (is_example_click e) = true -> typed_only s -> typed_only (step s e).
Proof.
  unfold typed_only. intros He Hs.
  destruct e as [ty | f | | v | | i]; try discriminate He; cbn [step].
  - unfold handleDrag. destruct (_ || _); [exact Hs|]. destruct (String.eqb _ _); exact Hs.
  - unfold handleDrop. destruct f; exact Hs.
  - exact Hs.
  - exact Hs.
  - unfold handleAnalyze. destruct (truthy _); [|exact Hs].
    destruct (trim_is_empty _); [exact Hs|].
    apply Forall_push; [exact Hs | reflexivity].
Qed.

(** What the analyze button emits. *)
Lemma clickAnalyze_emits (s : State) :
  analyzed (step s ClickAnalyze)
  = if trim_is_empty (problemText s) then analyzed s
    else push (analyzed s) (mkCtx default (problemText s)).
Proof.
  cbn [step]. unfold handleAnalyze.
  destruct (problemText s) eqn:E; [reflexivity|].
  cbn [truthy]. destruct (trim_is_empty _); reflexivity.
Qed.

End ScanViewFacts.

(** C10: in every run of the scan view without a click on an example, every
    context passed on has the complex kind [default], whatever was typed,
    dropped or clicked; in any run at all, a context with a specific kind is
    one of the pre-authored examples; and the analyze button passes on the
    typed text itself, tagged [default]. *)
Theorem typed_text_is_analyzed_as_default
    (es : list ScanView.Event) (c : ProblemContext) :
  forallb (fun e => negb (ScanView.is_example_click e)) es = true ->
  In c (ScanView.analyzed (ScanView.run ScanView.init es)) ->
  ctx_type c = default
  /\ (forall (es' : list ScanView.Event) (c' : ProblemContext),
        In c' (ScanView.analyzed (ScanView.run ScanView.init es')) ->
        ctx_type c' <> default -> In c' ScanView.examples)
  /\ (forall s : ScanView.State,
        ScanView.analyzed (ScanView.step s ScanView.ClickAnalyze)
        = if trim_is_empty (ScanView.problemText s) then ScanView.analyzed s
          else push (ScanView.analyzed s) (mkCtx default (ScanView.problemText s))).
Proof.
  intros Hes Hc. split; [|split].
  - assert (Ht : ScanView.typed_only (ScanView.run ScanView.init es)).
    { unfold ScanView.run.
      apply (run_invariant ScanView.step
               (fun e => negb (ScanView.is_example_click e)) ScanView.typed_only);
        [apply ScanViewFacts.typed_only_step | exact Hes | constructor]. }
    unfold ScanView.typed_only in Ht. rewrite Forall_forall in Ht. now apply Ht.
  - intros es' c' Hc' Hk.
    assert (Ht : ScanView.typed_or_example (ScanView.run ScanView.init es')).
    { unfold ScanView.run.
      apply (run_invariant ScanView.step (fun _ => true) ScanView.typed_or_example);
        [intros s e _; apply ScanViewFacts.typed_or_example_step
        | now apply forallb_forall | constructor]. }
    unfold ScanView.typed_or_example in Ht. rewrite Forall_forall in Ht.
    destruct (Ht c' Hc') as [Hd | Hex]; [contradiction | exact Hex].
  - apply ScanViewFacts.clickAnalyze_emits.
Qed.

Lemma typed_text_is_analyzed_as_default_witness :
  ctx_type (mkCtx default "A cube has a volume of 512. Find its space diagonal.") = default
  /\ (forall (es' : list ScanView.Event) (c' : ProblemContext),
        In c' (ScanView.analyzed (ScanView.run ScanView.init es')) ->
        ctx_type c' <> default -> In c' ScanView.examples)
  /\ (forall s : ScanView.State,
        ScanView.analyzed (ScanView.step s ScanView.ClickAnalyze)
        = if trim_is_empty (ScanView.problemText s) then ScanView.analyzed s
          else push (ScanView.analyzed s) (mkCtx default (ScanView.problemText s))).
Proof.
  apply (typed_text_is_analyzed_as_default
           [ScanView.TextChange "A cube has a volume of 512. Find its space diagonal.";
            ScanView.ClickAnalyze]
           (mkCtx default "A cube has a volume of 512. Find its space diagonal.")).
  - reflexivity.
  - vm_compute. left. reflexivity.
Defined.

(** Text that names a cube is passed on as [default]; the cube example is
    passed on as [cube]. *)
Example scan_typed_cube_text :
  ScanView.analyzed
    (ScanView.run ScanView.init
       [ScanView.TextChange "A cube has a volume of 512. Find its space diagonal.";
        ScanView.ClickAnalyze; ScanView.ClickExample 1])
  = [mkCtx default "A cube has a volume of 512. Find its space diagonal.";
     mkCtx cube "A cube has a volume of 512 cm³. Find the length of its main space diagonal."].
Proof. vm_compute. reflexivity. Qed.

(** ** Tutoring session *)

Module WorkspaceFacts.
Import Workspace.

(** *** Initialization *)

Lemma initialMsg_opener (c : ProblemContext) :
  initialMsg c = greeting (ctx_type c) ++ opener_text (choose_opener c).
Proof.
  unfold initialMsg, choose_opener, greeting.
  destruct (signals_image_upload c), (ctx_type c), (text_is_long c); reflexivity.
Qed.

Lemma opener_asks_faces (t : GeometryType) (o : Opener) :
  asks_faces_or_vertices (greeting t ++ opener_text o) = Opener_eqb o AskFacesVertices.
Proof. destruct t, o; vm_compute; reflexivity. Qed.

(** *** Streaming *)

Lemma set_last_snoc (base : list ChatMessage) (m m' : ChatMessage) :
  set_last m' (base ++ [m])%list = (base ++ [m'])%list.
Proof.
  unfold set_last. rewrite removelast_last.
  destruct base; reflexivity.
Qed.

Lemma truthy_false_empty (t : string) : truthy t = false -> t = "".
Proof. destruct t; [reflexivity | discriminate]. Qed.

(** Fragments are appended to the message opened for the reply, in the
    order of arrival. *)
Lemma chunks_accumulate (chunks : list string) :
  forall (ctx : ProblemContext) (base : list ChatMessage) (acc inp : string)
         (ty re : bool) (chat : option ProblemContext) (m c : string)
         (snt : list string),
    run (mk ctx (base ++ [mkMsg ai acc])%list inp ty re chat
           [mkTurn m c (Streaming acc)] snt)
        (map (ChunkArrives 0) chunks)
    = mk ctx (base ++ [mkMsg ai (acc ++ concat_chunks chunks)])%list inp ty re chat
        [mkTurn m c (Streaming (acc ++ concat_chunks chunks))] snt.
Proof.
  induction chunks as [|t chunks IH]; intros.
  - cbn. now rewrite str_app_nil_r.
  - cbn [map run fold_left step chunk_arrives turns nth_error].
    destruct (truthy t) eqn:Et.
    + unfold setMessages, setTurns. cbn [messages set_nth turns context inputText
        isTyping isRetrieving chatSessionRef sent].
      rewrite set_last_snoc.
      fold (run (mk ctx (base ++ [mkMsg ai (acc ++ t)])%list inp ty re chat
                   [mkTurn m c (Streaming (acc ++ t))] snt)
                (map (ChunkArrives 0) chunks)).
      rewrite IH. cbn [concat_chunks fold_right]. fold (concat_chunks chunks).
      now rewrite str_app_assoc.
    + apply truthy_false_empty in Et. subst t.
      fold (run (mk ctx (base ++ [mkMsg ai acc])%list inp ty re chat
                   [mkTurn m c (Streaming acc)] snt)
                (map (ChunkArrives 0) chunks)).
      rewrite IH. reflexivity.
Qed.

Lemma run_app (s : State) (es es' : list Event) :
  run s (es ++ es')%list = run (run s es) es'.
Proof. unfold run. apply fold_left_app. Qed.

(** A failure of any running turn, whatever else is in flight. *)
Lemma transport_fails_any_turn (s : State) (i : nat) (t : Turn) :
  nth_error (turns s) i = Some t ->
  phase t <> Retrieving ->
  messages (transport_fails i s) = push (messages s) (mkMsg ai connection_error)
  /\ isTyping (transport_fails i s) = false
  /\ isRetrieving (transport_fails i s) = isRetrieving s
  /\ chatSessionRef (transport_fails i s) = chatSessionRef s
  /\ turns (transport_fails i s) = drop_nth i (turns s).
Proof.
  intros Ht Hp. unfold transport_fails. rewrite Ht.
  destruct t as [m c [| |f]]; [contradiction Hp; reflexivity | |]; repeat split.
Qed.

End WorkspaceFacts.

(** C9: initialization sets the transcript to exactly one message, from the
    tutor, which is the greeting followed by the opener chosen in this
    order: the image-upload signal in the problem text asks for the
    measurements; else the complex kind asks for faces or vertices; else a
    problem text of more than 10 characters asks for the first variable;
    else the generic opener. The message asks about faces or vertices
    exactly when the second opener is chosen, so never for cube, pyramid
    or frustum. *)
Theorem initChat_single_opening_message (s : Workspace.State) :
  Workspace.messages (Workspace.initChat s)
  = [mkMsg ai (Workspace.greeting (ctx_type (Workspace.context s))
               ++ Workspace.opener_text
                    (Workspace.choose_opener (Workspace.context s)))]
  /\ Workspace.asks_faces_or_vertices
       (Workspace.initialMsg (Workspace.context s))
     = negb (Workspace.signals_image_upload (Workspace.context s))
       && GeometryType_eqb (ctx_type (Workspace.context s)) default
  /\ (forall txt : string,
        Workspace.asks_faces_or_vertices (Workspace.initialMsg (mkCtx frustum txt)) = false
        /\ Workspace.asks_faces_or_vertices (Workspace.initialMsg (mkCtx cube txt)) = false
        /\ Workspace.asks_faces_or_vertices (Workspace.initialMsg (mkCtx pyramid txt)) = false).
Proof.
  split; [|split].
  - cbn. now rewrite WorkspaceFacts.initialMsg_opener.
  - rewrite WorkspaceFacts.initialMsg_opener, WorkspaceFacts.opener_asks_faces.
    unfold Workspace.choose_opener.
    destruct (Workspace.signals_image_upload (Workspace.context s)),
      (ctx_type (Workspace.context s)), (Workspace.text_is_long (Workspace.context s));
      reflexivity.
  - intros txt.
    rewrite !WorkspaceFacts.initialMsg_opener, !WorkspaceFacts.opener_asks_faces.
    unfold Workspace.choose_opener. cbn [ctx_type].
    repeat split;
      match goal with
      | |- context [Workspace.signals_image_upload ?c] =>
          destruct (Workspace.signals_image_upload c), (Workspace.text_is_long c)
      end; reflexivity.
Qed.

(** The four openers at work. *)
Example opening_messages :
  Workspace.initialMsg (mkCtx default ScanView.upload_placeholder)
  = "I've analyzed the geometry. Since I can't read the specific numbers from the image perfectly yet, could you tell me what values are given?"
  /\ Workspace.initialMsg (mkCtx default "A sphere in a cylinder.")
     = "I've analyzed the geometry. It looks complex. Can you describe the faces or vertices to help me understand it better?"
  /\ Workspace.initialMsg (mkCtx frustum "User sketched a frustum.")
     = "I've analyzed the frustum. It looks like an interesting problem. What is the first variable we need to identify?"
  /\ Workspace.initialMsg (mkCtx cube "A cube")
     = "I've analyzed the cube. I'm ready to help you solve it. Where should we start?".
Proof. vm_compute. repeat split. Qed.

(** C3, the keyboard path: a session for the cube, the first question sent
    with Enter; while its retrieval is pending a second question is typed and
    sent with Enter. Both questions are in the transcript and two turns are
    in flight. The send button in the same state does nothing. *)
Theorem enter_key_sends_while_retrieving :
  Workspace.in_flight
    (Workspace.run (Workspace.initChat (Workspace.mount (mkCtx cube "A cube")))
       [Workspace.InputChange "What is the volume?"; Workspace.KeyDown "Enter"]) = true
  /\ Workspace.user_messages
       (Workspace.run (Workspace.initChat (Workspace.mount (mkCtx cube "A cube")))
          [Workspace.InputChange "What is the volume?"; Workspace.KeyDown "Enter";
           Workspace.InputChange "and the area?"; Workspace.KeyDown "Enter"])
     = [mkMsg user "What is the volume?"; mkMsg user "and the area?"]
  /\ List.length
       (Workspace.turns
          (Workspace.run (Workspace.initChat (Workspace.mount (mkCtx cube "A cube")))
             [Workspace.InputChange "What is the volume?"; Workspace.KeyDown "Enter";
              Workspace.InputChange "and the area?"; Workspace.KeyDown "Enter"])) = 2%nat
  /\ Workspace.user_messages
       (Workspace.run (Workspace.initChat (Workspace.mount (mkCtx cube "A cube")))
          [Workspace.InputChange "What is the volume?"; Workspace.KeyDown "Enter";
           Workspace.InputChange "and the area?"; Workspace.ClickSend])
     = [mkMsg user "What is the volume?"].
Proof. vm_compute. repeat split. Qed.

(** The same while the reply is streaming: the second question is accepted,
    and the next fragment of the first reply is written over it, the last
    message of the transcript. *)
Example enter_key_sends_while_streaming :
  Workspace.isTyping
    (Workspace.run (Workspace.initChat (Workspace.mount (mkCtx cube "A cube")))
       [Workspace.InputChange "What is the volume?"; Workspace.KeyDown "Enter";
        Workspace.TimerFires 0; Workspace.SendResolves 0;
        Workspace.ChunkArrives 0 "Vol"]) = true
  /\ Workspace.messages
       (Workspace.run (Workspace.initChat (Workspace.mount (mkCtx cube "A cube")))
          [Workspace.InputChange "What is the volume?"; Workspace.KeyDown "Enter";
           Workspace.TimerFires 0; Workspace.SendResolves 0;
           Workspace.ChunkArrives 0 "Vol";
           Workspace.InputChange "and the area?"; Workspace.KeyDown "Enter";
           Workspace.ChunkArrives 0 "ume"])
     = [mkMsg ai "I've analyzed the cube. I'm ready to help you solve it. Where should we start?";
        mkMsg user "What is the volume?";
        mkMsg ai "Vol";
        mkMsg ai "Volume"].
Proof. vm_compute. split; reflexivity. Qed.

(** The button is gated on the two flags; the key handler is not. *)
Lemma clickSend_gated (s : Workspace.State) :
  Workspace.in_flight s = true -> Workspace.clickSend s = s.
Proof.
  unfold Workspace.in_flight, Workspace.clickSend, Workspace.send_disabled.
  intros Hf. destruct (trim_is_empty _); [reflexivity|].
  destruct (Workspace.isRetrieving s), (Workspace.isTyping s);
    try discriminate Hf; reflexivity.
Qed.

Lemma handleKeyPress_not_gated (s : Workspace.State) :
  trim_is_empty (Workspace.inputText s) = false ->
  Workspace.chatSessionRef s <> None ->
  Workspace.messages (Workspace.handleKeyPress "Enter" s)
  = push (Workspace.messages s) (mkMsg user (Workspace.inputText s))
  /\ Workspace.turns (Workspace.handleKeyPress "Enter" s)
     = push (Workspace.turns s)
         (Workspace.mkTurn (Workspace.inputText s)
            (retrieveContext (Workspace.inputText s) (ctx_type (Workspace.context s)))
            Workspace.Retrieving).
Proof.
  intros Hi Hc. unfold Workspace.handleKeyPress, Workspace.handleSendMessage.
  cbn [String.eqb Ascii.eqb Bool.eqb]. rewrite Hi.
  destruct (Workspace.chatSessionRef s); [split; reflexivity | congruence].
Qed.

(** C8: a turn taken in the Ready state whose request is rejected, or whose
    stream breaks after any number of fragments, ends with the fixed message
    appended to the transcript and the session Ready again (neither flag
    set, no turn running); the next question is then accepted. In any
    state, the failure of a running turn appends the fixed message, clears
    the streaming flag and keeps the chat handle. *)
Theorem transport_failure_returns_to_ready
    (s : Workspace.State) (msg : string) (chunks : list string) (next : string) :
  Workspace.Ready s ->
  Workspace.chatSessionRef s <> None ->
  trim_is_empty msg = false ->
  trim_is_empty next = false ->
  Workspace.Ready (Workspace.turn_failing_at_send s msg)
  /\ Workspace.messages (Workspace.turn_failing_at_send s msg)
     = (Workspace.messages s
        ++ [mkMsg user msg; mkMsg ai "Connection error. Please try again."])%list
  /\ Workspace.Ready (Workspace.turn_failing_in_stream s msg chunks)
  /\ Workspace.messages (Workspace.turn_failing_in_stream s msg chunks)
     = (Workspace.messages s
        ++ [mkMsg user msg; mkMsg ai (Workspace.concat_chunks chunks);
            mkMsg ai "Connection error. Please try again."])%list
  /\ Workspace.messages
       (Workspace.run (Workspace.turn_failing_at_send s msg)
          [Workspace.InputChange next; Workspace.ClickSend])
     = (Workspace.messages (Workspace.turn_failing_at_send s msg)
        ++ [mkMsg user next])%list
  /\ Workspace.messages
       (Workspace.run (Workspace.turn_failing_in_stream s msg chunks)
          [Workspace.InputChange next; Workspace.ClickSend])
     = (Workspace.messages (Workspace.turn_failing_in_stream s msg chunks)
        ++ [mkMsg user next])%list
  /\ (forall (s' : Workspace.State) (i : nat) (t : Workspace.Turn),
        nth_error (Workspace.turns s') i = Some t ->
        Workspace.phase t <> Workspace.Retrieving ->
        Workspace.messages (Workspace.transport_fails i s')
        = push (Workspace.messages s') (mkMsg ai "Connection error. Please try again.")
        /\ Workspace.isTyping (Workspace.transport_fails i s') = false
        /\ Workspace.chatSessionRef (Workspace.transport_fails i s')
           = Workspace.chatSessionRef s').
Proof.
  intros Hr Hc Hm Hn.
  destruct s as [ctx msgs inp ty re chat ts snt].
  destruct Hr as (Hre & Hty & Hts). cbn in Hre, Hty, Hts, Hc. subst re ty ts.
  destruct chat as [chat|]; [clear Hc | congruence].
  assert (Hsend :
    Workspace.run (Workspace.mk ctx msgs inp false false (Some chat) [] snt)
      [Workspace.InputChange msg; Workspace.ClickSend; Workspace.TimerFires 0]
    = Workspace.mk ctx (msgs ++ [mkMsg user msg])%list "" true false (Some chat)
        [Workspace.mkTurn msg (retrieveContext msg (ctx_type ctx)) Workspace.Sending]
        (push snt ("[Context: " ++ retrieveContext msg (ctx_type ctx)
                   ++ "] User Question: " ++ msg))).
  { unfold Workspace.run. cbn [fold_left Workspace.step].
    unfold Workspace.clickSend, Workspace.send_disabled, Workspace.setInputText.
    cbn [Workspace.inputText Workspace.isTyping Workspace.isRetrieving].
    rewrite Hm. cbn [orb].
    unfold Workspace.handleSendMessage.
    cbn [Workspace.inputText Workspace.chatSessionRef]. rewrite Hm. reflexivity. }
  assert (Hnext : forall (ms : list ChatMessage) (snt' : list string),
    Workspace.messages
      (Workspace.run (Workspace.mk ctx ms "" false false (Some chat) [] snt')
         [Workspace.InputChange next; Workspace.ClickSend])
    = (ms ++ [mkMsg user next])%list).
  { intros ms snt'. unfold Workspace.run. cbn [fold_left Workspace.step].
    unfold Workspace.clickSend, Workspace.send_disabled, Workspace.setInputText.
    cbn [Workspace.inputText Workspace.isTyping Workspace.isRetrieving].
    rewrite Hn. cbn [orb].
    unfold Workspace.handleSendMessage.
    cbn [Workspace.inputText Workspace.chatSessionRef]. rewrite Hn. reflexivity. }
  assert (Ha : Workspace.turn_failing_at_send
                 (Workspace.mk ctx msgs inp false false (Some chat) [] snt) msg
    = Workspace.mk ctx
        (msgs ++ [mkMsg user msg; mkMsg ai "Connection error. Please try again."])%list
        "" false false (Some chat) []
        (push snt ("[Context: " ++ retrieveContext msg (ctx_type ctx)
                   ++ "] User Question: " ++ msg))).
  { unfold Workspace.turn_failing_at_send.
    change [Workspace.InputChange msg; Workspace.ClickSend; Workspace.TimerFires 0;
            Workspace.TransportFails 0]
      with ([Workspace.InputChange msg; Workspace.ClickSend; Workspace.TimerFires 0]
            ++ [Workspace.TransportFails 0])%list.
    rewrite WorkspaceFacts.run_app, Hsend.
    cbv -[retrieveContext append List.app]. now rewrite <- app_assoc. }
  assert (Hb : Workspace.turn_failing_in_stream
                 (Workspace.mk ctx msgs inp false false (Some chat) [] snt) msg chunks
    = Workspace.mk ctx
        (msgs ++ [mkMsg user msg; mkMsg ai (Workspace.concat_chunks chunks);
                  mkMsg ai "Connection error. Please try again."])%list
        "" false false (Some chat) []
        (push snt ("[Context: " ++ retrieveContext msg (ctx_type ctx)
                   ++ "] User Question: " ++ msg))).
  { unfold Workspace.turn_failing_in_stream.
    change [Workspace.InputChange msg; Workspace.ClickSend; Workspace.TimerFires 0;
            Workspace.SendResolves 0]
      with ([Workspace.InputChange msg; Workspace.ClickSend; Workspace.TimerFires 0]
            ++ [Workspace.SendResolves 0])%list.
    rewrite !WorkspaceFacts.run_app, Hsend.
    replace (Workspace.run _ [Workspace.SendResolves 0])
      with (Workspace.mk ctx ((msgs ++ [mkMsg user msg]) ++ [mkMsg ai ""])%list
              "" true false (Some chat)
              [Workspace.mkTurn msg (retrieveContext msg (ctx_type ctx))
                 (Workspace.Streaming "")]
              (push snt ("[Context: " ++ retrieveContext msg (ctx_type ctx)
                         ++ "] User Question: " ++ msg)))
      by reflexivity.
    rewrite WorkspaceFacts.chunks_accumulate.
    cbv -[retrieveContext append List.app Workspace.concat_chunks].
    now rewrite <- !app_assoc. }
  rewrite Ha, Hb. cbn [Workspace.messages].
  do 4 (split; [repeat split|]).
  split; [apply Hnext|]. split; [apply Hnext|].
  intros s' i t Ht Hp.
  destruct (WorkspaceFacts.transport_fails_any_turn s' i t Ht Hp)
    as (Hmsg & Hty & _ & Hchat & _).
  repeat split; assumption.
Qed.

Lemma transport_failure_returns_to_ready_witness :
  Workspace.Ready
    (Workspace.turn_failing_at_send
       (Workspace.initChat (Workspace.mount (mkCtx cube "A cube"))) "What is the volume?")
  /\ Workspace.messages
       (Workspace.turn_failing_at_send
          (Workspace.initChat (Workspace.mount (mkCtx cube "A cube"))) "What is the volume?")
     = (Workspace.messages (Workspace.initChat (Workspace.mount (mkCtx cube "A cube")))
        ++ [mkMsg user "What is the volume?";
            mkMsg ai "Connection error. Please try again."])%list
  /\ Workspace.Ready
       (Workspace.turn_failing_in_stream
          (Workspace.initChat (Workspace.mount (mkCtx cube "A cube")))
          "What is the volume?" ["Vol"; "ume is "; "10"])
  /\ Workspace.messages
       (Workspace.turn_failing_in_stream
          (Workspace.initChat (Workspace.mount (mkCtx cube "A cube")))
          "What is the volume?" ["Vol"; "ume is "; "10"])
     = (Workspace.messages (Workspace.initChat (Workspace.mount (mkCtx cube "A cube")))
        ++ [mkMsg user "What is the volume?";
            mkMsg ai (Workspace.concat_chunks ["Vol"; "ume is "; "10"]);
            mkMsg ai "Connection error. Please try again."])%list
  /\ Workspace.messages
       (Workspace.run
          (Workspace.turn_failing_at_send
             (Workspace.initChat (Workspace.mount (mkCtx cube "A cube")))
             "What is the volume?")
          [Workspace.InputChange "and the area?"; Workspace.ClickSend])
     = (Workspace.messages
          (Workspace.turn_failing_at_send
             (Workspace.initChat (Workspace.mount (mkCtx cube "A cube")))
             "What is the volume?")
        ++ [mkMsg user "and the area?"])%list
  /\ Workspace.messages
       (Workspace.run
          (Workspace.turn_failing_in_stream
             (Workspace.initChat (Workspace.mount (mkCtx cube "A cube")))
             "What is the volume?" ["Vol"; "ume is "; "10"])
          [Workspace.InputChange "and the area?"; Workspace.ClickSend])
     = (Workspace.messages
          (Workspace.turn_failing_in_stream
             (Workspace.initChat (Workspace.mount (mkCtx cube "A cube")))
             "What is the volume?" ["Vol"; "ume is "; "10"])
        ++ [mkMsg user "and the area?"])%list
  /\ (forall (s' : Workspace.State) (i : nat) (t : Workspace.Turn),
        nth_error (Workspace.turns s') i = Some t ->
        Workspace.phase t <> Workspace.Retrieving ->
        Workspace.messages (Workspace.transport_fails i s')
        = push (Workspace.messages s') (mkMsg ai "Connection error. Please try again.")
        /\ Workspace.isTyping (Workspace.transport_fails i s') = false
        /\ Workspace.chatSessionRef (Workspace.transport_fails i s')
           = Workspace.chatSessionRef s').
Proof.
  apply (transport_failure_returns_to_ready
           (Workspace.initChat (Workspace.mount (mkCtx cube "A cube")))
           "What is the volume?" ["Vol"; "ume is "; "10"] "and the area?").
  - repeat split.
  - discriminate.
  - reflexivity.
  - reflexivity.
Defined.

(** The streaming example of the specification. *)
Example streaming_accumulates :
  Workspace.messages
    (Workspace.run (Workspace.initChat (Workspace.mount (mkCtx cube "A cube")))
       [Workspace.InputChange "What is the volume?"; Workspace.ClickSend;
        Workspace.TimerFires 0; Workspace.SendResolves 0;
        Workspace.ChunkArrives 0 "Vol"; Workspace.ChunkArrives 0 "ume is ";
        Workspace.ChunkArrives 0 "10"; Workspace.StreamEnds 0])
  = [mkMsg ai "I've analyzed the cube. I'm ready to help you solve it. Where should we start?";
     mkMsg user "What is the volume?";
     mkMsg ai "Volume is 10"].
Proof. vm_compute. reflexivity. Qed.

(* ================================================================== *)
(** * Further properties of the sketch pad *)
(* ================================================================== *)

Section SketchpadMoreFacts.

Context {num : Type} `{JSNumber num}.

Local Abbreviation Sketchpad := (Sketchpad num).
Local Abbreviation SketchEvent := (SketchEvent num).
Local Abbreviation Point := (@Point num).

Ltac guards :=
  repeat match goal with
    | |- context [if ?b then _ else _] => destruct b eqn:?
    | |- context [match ?l with [] => _ | _ :: _ => _ end] => destruct l eqn:?
    end.

Lemma last_recorded_point (l : list Point) (q d : Point) :
  nth (List.length (l ++ [q])%list - 1) (l ++ [q])%list d = q.
Proof. rewrite nth_length_pred_last. apply last_last. Qed.

(** What a move does to the stroke in progress. *)
Lemma handlePointerMove_stroke (buttons : nat) (p : Point) (s : Sketchpad) :
  currentPoints (handlePointerMove buttons p s)
  = if negb (buttons =? 1)%nat || isSolving s then currentPoints s
    else match currentPoints s with
         | [] => [p]
         | p0 :: _ =>
             if within_threshold (last (currentPoints s) p0) p
             then currentPoints s
             else (currentPoints s ++ [p])%list
         end.
Proof.
  unfold handlePointerMove, within_threshold.
  destruct (negb _ || _); [reflexivity|].
  cbn [setCurrentPoints currentPoints].
  destruct (currentPoints s) as [|p0 l] eqn:E; [reflexivity|].
  rewrite nth_length_pred_last. reflexivity.
Qed.

Lemma move_within_threshold_noop
    (s : Sketchpad) (buttons : nat) (p q : Point) (l : list Point) :
  currentPoints s = (l ++ [q])%list ->
  within_threshold q p = true ->
  handlePointerMove buttons p s = s.
Proof.
  intros E Hn. unfold handlePointerMove.
  destruct (negb _ || _); [reflexivity|].
  destruct s as [c cp so sh se ti co]. cbn in E. subst cp.
  unfold setCurrentPoints. cbn [committed currentPoints isSolving showRecognition
    selectedTemplate timers completed].
  f_equal.
  destruct (l ++ [q])%list as [|p0 l'] eqn:E; [destruct l; discriminate|].
  rewrite <- E, last_recorded_point.
  unfold within_threshold in Hn. now rewrite Hn.
Qed.

(** X1: a move that lands within 4 units of the last recorded point leaves
    the whole state of the sketch pad as it was; any other move leaves the
    stroke as it was or adds the new point at its end. *)
Theorem pointer_move_within_threshold_ignored
    (s : Sketchpad) (buttons : nat) (p q : Point) (l : list Point) :
  currentPoints s = (l ++ [q])%list ->
  within_threshold q p = true ->
  handlePointerMove buttons p s = s
  /\ forall (s' : Sketchpad) (b : nat) (p' : Point),
       currentPoints (handlePointerMove b p' s') = currentPoints s'
       \/ currentPoints (handlePointerMove b p' s') = (currentPoints s' ++ [p'])%list.
Proof.
  intros E Hn. split; [now apply (move_within_threshold_noop s buttons p q l)|].
  clear. intros s' b p'. rewrite handlePointerMove_stroke.
  destruct (negb (b =? 1)%nat || isSolving s'); [now left|].
  destruct (currentPoints s') as [|p0 l']; [now right|].
  destruct (within_threshold (last (p0 :: l') p0) p'); [now left | now right].
Qed.

Lemma spaced_snoc (l : list Point) (p d : Point) :
  spaced l = true ->
  (l = [] \/ within_threshold (last l d) p = false) ->
  spaced (l ++ [p])%list = true.
Proof.
  induction l as [|a l IH]; intros Hs Hl; [reflexivity|].
  destruct l as [|b l].
  - destruct Hl as [Hl | Hl]; [discriminate|].
    cbn in Hl |- *. now rewrite Hl.
  - cbn [spaced] in Hs. apply andb_true_iff in Hs as [Hab Hs].
    change ((a :: b :: l) ++ [p])%list with (a :: ((b :: l) ++ [p]))%list.
    change ((b :: l) ++ [p])%list with (b :: (l ++ [p]))%list.
    cbn [spaced]. rewrite Hab. cbn [andb].
    change (b :: (l ++ [p]))%list with ((b :: l) ++ [p])%list.
    apply IH; [exact Hs|].
    right. destruct Hl as [Hl | Hl]; [discriminate | exact Hl].
Qed.

Lemma spaced_step (s : Sketchpad) (e : SketchEvent) :
  spaced (currentPoints s) = true -> spaced (currentPoints (sketch_step s e)) = true.
Proof.
  intros Hs. destruct e; cbn [sketch_step];
    try (unfold handlePointerDown, handlePointerUp, addTemplate, clearCanvas, undoLast,
           handleMagic, handleRecognitionConfirm, handleRecognitionCancel, timer_fires;
         guards; cbn; auto; fail).
  rewrite handlePointerMove_stroke.
  destruct (negb _ || _); [exact Hs|].
  destruct (currentPoints s) as [|p0 l] eqn:E; [reflexivity|].
  destruct (within_threshold _ _) eqn:W; [exact Hs|].
  apply (spaced_snoc (p0 :: l) p p0); [exact Hs | right; exact W].
Qed.

(** X2: whatever happens on the sketch pad, starting from the empty one, no
    point of the stroke in progress lies within 4 units of the point
    recorded before it. *)
Theorem stroke_points_stay_spaced (es : list SketchEvent) :
  spaced (currentPoints (sketch_run sketchpad_init es)) = true.
Proof.
  unfold sketch_run.
  apply (run_invariant sketch_step (fun _ => true)
           (fun s => spaced (currentPoints s) = true)).
  - intros s e _. apply spaced_step.
  - now apply forallb_forall.
  - reflexivity.
Qed.

Lemma jitter_moves_keep_single_point (p : Point) (qs : list Point) :
  forall s : Sketchpad,
    isSolving s = false ->
    currentPoints s = [p] ->
    forallb (within_threshold p) qs = true ->
    sketch_run s (map (PointerMove 1) qs) = s.
Proof.
  induction qs as [|q qs IH]; intros s Hso Hc Hq; [reflexivity|].
  cbn [forallb] in Hq. apply andb_true_iff in Hq as [Hq Hqs].
  cbn [map]. change (sketch_run s (PointerMove 1 q :: map (PointerMove 1) qs))
    with (sketch_run (handlePointerMove 1 q s) (map (PointerMove 1) qs)).
  rewrite (move_within_threshold_noop s 1 q p []); auto.
Qed.

(** X3: a press followed by moves that all stay within 4 units of the
    pressed point and a release commits no path and leaves no stroke in
    progress: a tap or a jitter draws nothing. *)
Theorem tap_commits_nothing (s : Sketchpad) (p : Point) (qs : list Point) :
  isSolving s = false ->
  forallb (within_threshold p) qs = true ->
  committed (sketch_run s (PointerDown p :: map (PointerMove 1) qs ++ [PointerUp])%list)
  = committed s
  /\ currentPoints
       (sketch_run s (PointerDown p :: map (PointerMove 1) qs ++ [PointerUp])%list) = [].
Proof.
  intros Hso Hq.
  change (sketch_run s (PointerDown p :: map (PointerMove 1) qs ++ [PointerUp])%list)
    with (sketch_run (handlePointerDown p s) (map (PointerMove 1) qs ++ [PointerUp])%list).
  unfold sketch_run. rewrite fold_left_app.
  fold (sketch_run (handlePointerDown p s) (map (PointerMove 1) qs)).
  assert (Hd : handlePointerDown p s = setCurrentPoints (fun _ => [p]) s)
    by (unfold handlePointerDown; now rewrite Hso).
  rewrite (jitter_moves_keep_single_point p qs);
    [| rewrite Hd; exact Hso | rewrite Hd; reflexivity | exact Hq].
  rewrite Hd. split; reflexivity.
Qed.

(** X4: undo takes back the last commit: after a template is inserted, or
    after a release that committed a stroke, undo gives the committed list
    of before; in general it shortens the list by one, and by none when the
    canvas is empty. *)
Theorem undo_takes_back_last_commit (s : Sketchpad) (t : TemplateName) :
  committed (sketch_run s [ClickTemplate t; ClickUndo]) = committed s
  /\ committed (sketch_run s [PointerUp; ClickUndo])
     = (if (1 <? List.length (currentPoints s))%nat then committed s
        else removelast (committed s))
  /\ List.length (paths (sketch_step s ClickUndo)) = (List.length (paths s) - 1)%nat.
Proof.
  split; [|split].
  - cbn. unfold push. apply removelast_last.
  - unfold sketch_run. cbn [fold_left sketch_step]. unfold undoLast, handlePointerUp.
    destruct (1 <? List.length (currentPoints s))%nat; cbn; [|reflexivity].
    unfold push. apply removelast_last.
  - cbn. unfold paths. cbn. rewrite !length_map.
    destruct (committed s) as [|c l] using rev_ind; [reflexivity|].
    rewrite removelast_last, length_app. cbn. lia.
Qed.

Lemma freehand_filter_removelast (l : list (string * Origin)) :
  (List.length (filter (fun c => is_freehand (snd c)) (removelast l))
   <= List.length (filter (fun c => is_freehand (snd c)) l))%nat.
Proof.
  destruct l as [|c l] using rev_ind; [reflexivity|].
  rewrite removelast_last, filter_app, length_app. lia.
Qed.

Lemma solving_idle_step (s : Sketchpad) (e : SketchEvent) :
  solving_idle s ->
  solving_idle (sketch_step s e)
  /\ (freehand_count (sketch_step s e) <= freehand_count s)%nat.
Proof.
  unfold solving_idle, freehand_count. intros [Hso Hc].
  destruct e; cbn [sketch_step];
    unfold handlePointerDown, handlePointerMove, handlePointerUp, addTemplate,
      clearCanvas, undoLast, handleMagic, handleRecognitionConfirm,
      handleRecognitionCancel, timer_fires;
    rewrite ?Hso, ?Hc, ?orb_true_r; cbn [List.length Nat.ltb Nat.leb];
    guards; cbn; unfold push; rewrite ?filter_app, ?length_app; cbn;
    repeat split; auto; try lia; try apply freehand_filter_removelast.
Qed.

(** X6: once the pad is solving, with no stroke in progress, it stays so
    whatever follows: no press or move starts a stroke, the number of
    free-hand paths never grows, and the solve button does nothing. *)
Theorem solving_blocks_drawing (s : Sketchpad) (es : list SketchEvent) :
  isSolving s = true ->
  currentPoints s = [] ->
  isSolving (sketch_run s es) = true
  /\ currentPoints (sketch_run s es) = []
  /\ (freehand_count (sketch_run s es) <= freehand_count s)%nat
  /\ sketch_step (sketch_run s es) ClickSolve = sketch_run s es.
Proof.
  intros Hso Hc.
  assert (Hrun : forall (es : list SketchEvent) (s : Sketchpad),
             solving_idle s ->
             solving_idle (sketch_run s es)
             /\ (freehand_count (sketch_run s es) <= freehand_count s)%nat).
  { clear. induction es as [|e es IH]; intros s Hs;
      [split; [exact Hs | apply Nat.le_refl]|].
    destruct (solving_idle_step s e Hs) as [Hs' Hle].
    destruct (IH (sketch_step s e) Hs') as [Hs'' Hle'].
    change (sketch_run s (e :: es)) with (sketch_run (sketch_step s e) es).
    split; [exact Hs'' | lia]. }
  destruct (Hrun es s (conj Hso Hc)) as [[Hso' Hc'] Hle].
  repeat split; auto.
  cbn [sketch_step]. now rewrite Hso', orb_true_r.
Qed.

(** X7: inserting a template and clicking solve schedules the context of
    the template's kind at once: the modal is not opened and the pad is
    solving. *)
Theorem template_then_solve_skips_modal (s : Sketchpad) (t : TemplateName) :
  isSolving s = false ->
  timers (sketch_run s [ClickTemplate t; ClickSolve])
  = push (timers s)
      (mkCtx (template_type t)
         ("User sketched a " ++ type_string (template_type t) ++ " and wants to analyze it."))
  /\ showRecognition (sketch_run s [ClickTemplate t; ClickSolve]) = showRecognition s
  /\ isSolving (sketch_run s [ClickTemplate t; ClickSolve]) = true
  /\ completed (sketch_run s [ClickTemplate t; ClickSolve; TimerFires])
     = match timers s with
       | [] => push (completed s)
                 (mkCtx (template_type t)
                    ("User sketched a " ++ type_string (template_type t)
                     ++ " and wants to analyze it."))
       | c :: _ => push (completed s) c
       end.
Proof.
  intros Hso.
  assert (Hlen : (List.length (paths (addTemplate (TEMPLATES t) (template_type t) s)) =? 0)%nat
                 = false).
  { unfold paths, addTemplate, push. cbn. rewrite length_map, length_app. cbn.
    apply Nat.eqb_neq. lia. }
  assert (Hrun : sketch_run s [ClickTemplate t; ClickSolve]
                 = setTimeout_onComplete
                     (mkCtx (template_type t)
                        ("User sketched a " ++ type_string (template_type t)
                         ++ " and wants to analyze it."))
                     (setIsSolving true (addTemplate (TEMPLATES t) (template_type t) s))).
  { unfold sketch_run. cbn [fold_left sketch_step].
    rewrite Hlen. cbn [orb].
    replace (isSolving (addTemplate (TEMPLATES t) (template_type t) s)) with false
      by (symmetry; exact Hso).
    unfold handleMagic. rewrite Hlen.
    replace (selectedTemplate (addTemplate (TEMPLATES t) (template_type t) s))
      with (template_type t) by reflexivity.
    destruct t; reflexivity. }
  change (sketch_run s [ClickTemplate t; ClickSolve; TimerFires])
    with (timer_fires (sketch_run s [ClickTemplate t; ClickSolve])).
  rewrite Hrun. repeat split.
  unfold timer_fires. cbn. unfold push. destruct (timers s); reflexivity.
Qed.

Lemma Forall_snoc {A} (Q : A -> Prop) (l : list A) (x : A) :
  Forall Q l -> Q x -> Forall Q (l ++ [x])%list.
Proof. intros Hl Hx. apply Forall_app. split; [exact Hl | repeat constructor; exact Hx]. Qed.

Lemma Forall_removelast {A} (Q : A -> Prop) (l : list A) :
  Forall Q l -> Forall Q (removelast l).
Proof.
  destruct l as [|x l] using rev_ind; [auto|].
  rewrite removelast_last. intros Hl. apply Forall_app in Hl. tauto.
Qed.

Lemma canned_direct (k : GeometryType) :
  GeometryType_eqb k default = false ->
  canned_sketch_context
    (mkCtx k ("User sketched a " ++ type_string k ++ " and wants to analyze it.")) = true.
Proof. destruct k; [discriminate | reflexivity ..]. Qed.

Lemma canned_confirmed (k : GeometryType) :
  canned_sketch_context
    (mkCtx k (if GeometryType_eqb k default
              then "User sketched a complex geometric shape. Ask them to describe its faces and vertices."
              else "User sketched a " ++ type_string k ++ ".")) = true.
Proof. destruct k; reflexivity. Qed.

Lemma canned_step (s : Sketchpad) (e : SketchEvent) :
  Forall (fun c => canned_sketch_context c = true) (emitted_or_scheduled s) ->
  Forall (fun c => canned_sketch_context c = true) (emitted_or_scheduled (sketch_step s e)).
Proof.
  unfold emitted_or_scheduled. intros Hs.
  destruct e; cbn [sketch_step];
    try (unfold handlePointerDown, handlePointerMove, handlePointerUp, addTemplate,
           clearCanvas, undoLast, handleRecognitionCancel;
         guards; cbn; exact Hs).
  - (* solve *)
    destruct (_ || _); [exact Hs|]. unfold handleMagic.
    destruct (_ =? _)%nat; [exact Hs|].
    destruct (GeometryType_eqb (selectedTemplate s) default) eqn:Ek; [exact Hs|].
    cbn. unfold push. rewrite app_assoc. apply Forall_snoc; [exact Hs|].
    now apply canned_direct.
  - (* confirm *)
    destruct (showRecognition s); [|exact Hs].
    cbn. unfold push. rewrite app_assoc. apply Forall_snoc; [exact Hs|].
    apply canned_confirmed.
  - (* timer *)
    unfold timer_fires. destruct (timers s) as [|c rest] eqn:Et; [now rewrite Et|].
    cbn. unfold push. rewrite <- app_assoc. exact Hs.
Qed.

Lemma canned_opener (c : ProblemContext) :
  canned_sketch_context c = true ->
  Workspace.choose_opener c
  = match ctx_type c with
    | default => Workspace.AskFacesVertices
    | _ => Workspace.AskFirstVariable
    end.
Proof.
  destruct c as [k txt]. unfold canned_sketch_context. cbn [ctx_type ctx_text].
  destruct k; intros Hc;
    [| apply orb_true_iff in Hc as [Hc | Hc] ..];
    apply String.eqb_eq in Hc; subst txt; reflexivity.
Qed.

(** X8: every context the sketch pad schedules or emits, in any run from
    the empty pad, carries one of the canned texts of its kind; the session
    it seeds therefore opens with the question about faces and vertices for
    the complex kind and with the question about the first variable for
    cube, pyramid and frustum, never with the upload question or the
    generic opener. *)
Theorem sketch_contexts_are_canned (es : list SketchEvent) (c : ProblemContext) :
  In c (emitted_or_scheduled (sketch_run sketchpad_init es)) ->
  canned_sketch_context c = true
  /\ Workspace.choose_opener c
     = match ctx_type c with
       | default => Workspace.AskFacesVertices
       | _ => Workspace.AskFirstVariable
       end
  /\ Workspace.messages (Workspace.initChat (Workspace.mount c))
     = [mkMsg ai
          (Workspace.greeting (ctx_type c)
           ++ Workspace.opener_text
                match ctx_type c with
                | default => Workspace.AskFacesVertices
                | _ => Workspace.AskFirstVariable
                end)].
Proof.
  intros Hin.
  assert (Hall : Forall (fun c => canned_sketch_context c = true)
                   (emitted_or_scheduled (sketch_run sketchpad_init es))).
  { unfold sketch_run.
    apply (run_invariant sketch_step (fun _ => true)
             (fun s => Forall (fun c => canned_sketch_context c = true)
                         (emitted_or_scheduled s)));
      [intros s e _; apply canned_step | now apply forallb_forall | constructor]. }
  rewrite Forall_forall in Hall. specialize (Hall c Hin).
  split; [exact Hall|]. split; [now apply canned_opener|].
  cbn. rewrite WorkspaceFacts.initialMsg_opener. now rewrite canned_opener.
Qed.

Lemma getSmoothedPath_moveto (points : list Point) :
  points <> [] -> startsWith (getSmoothedPath points) "M " = true.
Proof.
  destruct points as [|p0 [|p1 [|p2 rest]]]; intros Hne; [congruence | | |].
  - rewrite (getSmoothedPath_short [p0]) by (simpl; lia). reflexivity.
  - rewrite (getSmoothedPath_short [p0; p1]) by (simpl; lia). reflexivity.
  - rewrite getSmoothedPath_long. unfold spec_curve.
    rewrite serialize_cons by (destruct (interior_quads p1 (p2 :: rest)); discriminate).
    reflexivity.
Qed.

Lemma moveto_step (s : Sketchpad) (e : SketchEvent) :
  Forall (fun c => startsWith (fst c) "M " = true) (committed s) ->
  Forall (fun c => startsWith (fst c) "M " = true) (committed (sketch_step s e)).
Proof.
  intros Hs.
  destruct e; cbn [sketch_step];
    try (unfold handlePointerDown, handlePointerMove, clearCanvas,
           handleMagic, handleRecognitionConfirm, handleRecognitionCancel, timer_fires;
         guards; cbn; auto; fail).
  - unfold handlePointerUp.
    destruct (1 <? List.length (currentPoints s))%nat eqn:El; cbn; [|exact Hs].
    unfold push. apply Forall_snoc; [exact Hs|]. cbn [fst].
    apply getSmoothedPath_moveto. intros E. rewrite E in El. discriminate.
  - unfold handlePointerUp.
    destruct (1 <? List.length (currentPoints s))%nat eqn:El; cbn; [|exact Hs].
    unfold push. apply Forall_snoc; [exact Hs|]. cbn [fst].
    apply getSmoothedPath_moveto. intros E. rewrite E in El. discriminate.
  - cbn. now apply Forall_removelast.
  - cbn. unfold push. apply Forall_snoc; [exact Hs|]. destruct t; reflexivity.
Qed.

(** X9: every path on the canvas, drawn or inserted, in any run from the
    empty pad, is path data that begins with a move-to command. *)
Theorem committed_paths_begin_with_moveto (es : list SketchEvent) (d : string) :
  In d (paths (sketch_run sketchpad_init es)) ->
  startsWith d "M " = true.
Proof.
  intros Hin.
  assert (Hall : Forall (fun c => startsWith (fst c) "M " = true)
                   (committed (sketch_run sketchpad_init es))).
  { unfold sketch_run.
    apply (run_invariant sketch_step (fun _ => true)
             (fun s => Forall (fun c => startsWith (fst c) "M " = true) (committed s)));
      [intros s e _; apply moveto_step | now apply forallb_forall | constructor]. }
  unfold paths in Hin. apply in_map_iff in Hin as (c & Hc & Hin).
  rewrite Forall_forall in Hall. subst d. now apply Hall.
Qed.

Lemma confirmed_step (s : Sketchpad) (e : SketchEvent) :
  isSolving s = true /\ showRecognition s = false ->
  (isSolving (sketch_step s e) = true /\ showRecognition (sketch_step s e) = false)
  /\ emitted_or_scheduled (sketch_step s e) = emitted_or_scheduled s.
Proof.
  unfold emitted_or_scheduled. intros [Hso Hsh].
  destruct e; cbn [sketch_step];
    unfold handlePointerDown, handlePointerMove, handlePointerUp, addTemplate,
      clearCanvas, undoLast, timer_fires;
    rewrite ?Hso, ?Hsh, ?orb_true_r;
    guards; cbn; unfold push;
    repeat match goal with E : timers s = _ |- _ => rewrite E; clear E end;
    rewrite <- ?app_assoc; auto.
Qed.

(** X5: a confirmation is final. Once a kind is picked in the open modal,
    exactly the context of that kind is scheduled, and whatever follows
    (further clicks on the modal or on solve, templates, drawing, undo,
    clear, time passing) schedules no other: the contexts emitted or
    pending stay the earlier ones followed by the confirmed one. *)
Theorem confirmation_is_final
    (s : Sketchpad) (type : GeometryType) (es : list SketchEvent) :
  showRecognition s = true ->
  emitted_or_scheduled (sketch_run s (ModalConfirm type :: es))
  = (emitted_or_scheduled s
     ++ [mkCtx type
           (if GeometryType_eqb type default
            then "User sketched a complex geometric shape. Ask them to describe its faces and vertices."
            else "User sketched a " ++ type_string type ++ ".")])%list
  /\ isSolving (sketch_run s (ModalConfirm type :: es)) = true
  /\ showRecognition (sketch_run s (ModalConfirm type :: es)) = false.
Proof.
  intros Hsh.
  change (sketch_run s (ModalConfirm type :: es))
    with (sketch_run (sketch_step s (ModalConfirm type)) es).
  assert (Hrun : forall (es : list SketchEvent) (s : Sketchpad),
             isSolving s = true /\ showRecognition s = false ->
             (isSolving (sketch_run s es) = true /\ showRecognition (sketch_run s es) = false)
             /\ emitted_or_scheduled (sketch_run s es) = emitted_or_scheduled s).
  { clear. induction es as [|e es IH]; intros s Hs; [split; [exact Hs | reflexivity]|].
    destruct (confirmed_step s e Hs) as [Hs' He].
    destruct (IH (sketch_step s e) Hs') as [Hs'' He'].
    change (sketch_run s (e :: es)) with (sketch_run (sketch_step s e) es).
    split; [exact Hs'' | congruence]. }
  assert (H1 : sketch_step s (ModalConfirm type) = handleRecognitionConfirm type s)
    by (cbn [sketch_step]; now rewrite Hsh).
  destruct (Hrun es (sketch_step s (ModalConfirm type))) as [[Hso' Hsh'] He].
  { rewrite H1. split; reflexivity. }
  split; [|split; assumption].
  rewrite He, H1.
  unfold emitted_or_scheduled, handleRecognitionConfirm, push. cbn.
  now rewrite app_assoc.
Qed.

Lemma interior_quads_length (cp : Point) (rest : list Point) :
  List.length (interior_quads cp rest) = List.length rest.
Proof.
  revert cp. induction rest as [|next rest IH]; intros cp; [reflexivity|].
  cbn. now rewrite IH.
Qed.

(** X22: the path data of a stroke has one command for each of its points:
    [getSmoothedPath] writes the serialization of a curve with as many
    segments as the stroke has points, the first a move-to, and for three
    or more points all others but the last quadratic. *)
Theorem one_command_per_point (points : list Point) :
  getSmoothedPath points
  = serialize (if (List.length points <? 3)%nat then num_toString else toFixed2)
      (spec_curve points)
  /\ List.length (spec_curve points) = List.length points
  /\ List.length
       (filter (fun s => match s with QuadTo _ _ => true | _ => false end)
          (spec_curve points))
     = (List.length points - 2)%nat.
Proof.
  destruct points as [|p0 [|p1 [|p2 rest]]].
  - repeat split.
  - split; [apply (getSmoothedPath_short [p0]); simpl; lia | split; reflexivity].
  - split; [apply (getSmoothedPath_short [p0; p1]); simpl; lia | split; reflexivity].
  - split; [apply getSmoothedPath_long|].
    unfold spec_curve.
    assert (Hq : filter (fun s => match s with QuadTo _ _ => true | _ => false end)
                   (interior_quads p1 (p2 :: rest)) = interior_quads p1 (p2 :: rest)).
    { generalize p1 (p2 :: rest). intros cp l. revert cp.
      induction l as [|x l IH]; intros cp; [reflexivity|]. cbn. now rewrite IH. }
    split.
    + cbn [List.length]. rewrite length_app, interior_quads_length. cbn. lia.
    + cbn [filter]. rewrite filter_app, Hq, length_app, interior_quads_length. cbn. lia.
Qed.

End SketchpadMoreFacts.

Lemma pointer_move_within_threshold_ignored_witness :
  handlePointerMove 1 (pt 12 1)
    (sketch_run sketchpad_init [PointerDown (pt 0 0); PointerMove 1 (pt 10 0)])
  = sketch_run sketchpad_init [PointerDown (pt 0 0); PointerMove 1 (pt 10 0)]
  /\ forall (s' : Sketchpad Dyadic.dyadic) (b : nat) (p' : @Point Dyadic.dyadic),
       currentPoints (handlePointerMove b p' s') = currentPoints s'
       \/ currentPoints (handlePointerMove b p' s') = (currentPoints s' ++ [p'])%list.
Proof.
  apply (pointer_move_within_threshold_ignored
           (sketch_run sketchpad_init [PointerDown (pt 0 0); PointerMove 1 (pt 10 0)])
           1 (pt 12 1) (pt 10 0) [pt 0 0]);
    reflexivity.
Defined.

Lemma tap_commits_nothing_witness :
  committed
    (sketch_run one_stroke
       (PointerDown (pt 50 50) :: map (PointerMove 1) [pt 51 50; pt 52 52; pt 50 53]
        ++ [PointerUp])%list)
  = committed one_stroke
  /\ currentPoints
       (sketch_run one_stroke
          (PointerDown (pt 50 50) :: map (PointerMove 1) [pt 51 50; pt 52 52; pt 50 53]
           ++ [PointerUp])%list) = [].
Proof.
  apply (tap_commits_nothing one_stroke (pt 50 50) [pt 51 50; pt 52 52; pt 50 53]);
    reflexivity.
Defined.

Lemma solving_blocks_drawing_witness :
  isSolving
    (sketch_run (sketch_run one_stroke [ClickSolve; ModalConfirm cube])
       [PointerDown (pt 0 0); PointerMove 1 (pt 10 0); PointerUp; ClickSolve]) = true
  /\ currentPoints
       (sketch_run (sketch_run one_stroke [ClickSolve; ModalConfirm cube])
          [PointerDown (pt 0 0); PointerMove 1 (pt 10 0); PointerUp; ClickSolve]) = []
  /\ (freehand_count
        (sketch_run (sketch_run one_stroke [ClickSolve; ModalConfirm cube])
           [PointerDown (pt 0 0); PointerMove 1 (pt 10 0); PointerUp; ClickSolve])
      <= freehand_count (sketch_run one_stroke [ClickSolve; ModalConfirm cube]))%nat
  /\ sketch_step
       (sketch_run (sketch_run one_stroke [ClickSolve; ModalConfirm cube])
          [PointerDown (pt 0 0); PointerMove 1 (pt 10 0); PointerUp; ClickSolve])
       ClickSolve
     = sketch_run (sketch_run one_stroke [ClickSolve; ModalConfirm cube])
         [PointerDown (pt 0 0); PointerMove 1 (pt 10 0); PointerUp; ClickSolve].
Proof.
  apply (solving_blocks_drawing
           (sketch_run one_stroke [ClickSolve; ModalConfirm cube])
           [PointerDown (pt 0 0); PointerMove 1 (pt 10 0); PointerUp; ClickSolve]);
    reflexivity.
Defined.

Lemma template_then_solve_skips_modal_witness :
  timers (sketch_run one_stroke [ClickTemplate PYRAMID; ClickSolve])
  = push (timers one_stroke)
      (mkCtx (template_type PYRAMID)
         ("User sketched a " ++ type_string (template_type PYRAMID)
          ++ " and wants to analyze it."))
  /\ showRecognition (sketch_run one_stroke [ClickTemplate PYRAMID; ClickSolve])
     = showRecognition one_stroke
  /\ isSolving (sketch_run one_stroke [ClickTemplate PYRAMID; ClickSolve]) = true
  /\ completed (sketch_run one_stroke [ClickTemplate PYRAMID; ClickSolve; TimerFires])
     = match timers one_stroke with
       | [] => push (completed one_stroke)
                 (mkCtx (template_type PYRAMID)
                    ("User sketched a " ++ type_string (template_type PYRAMID)
                     ++ " and wants to analyze it."))
       | c :: _ => push (completed one_stroke) c
       end.
Proof.
  apply (template_then_solve_skips_modal one_stroke PYRAMID). reflexivity.
Defined.

Lemma sketch_contexts_are_canned_witness :
  canned_sketch_context (mkCtx frustum "User sketched a frustum.") = true
  /\ Workspace.choose_opener (mkCtx frustum "User sketched a frustum.")
     = match ctx_type (mkCtx frustum "User sketched a frustum.") with
       | default => Workspace.AskFacesVertices
       | _ => Workspace.AskFirstVariable
       end
  /\ Workspace.messages
       (Workspace.initChat (Workspace.mount (mkCtx frustum "User sketched a frustum.")))
     = [mkMsg ai
          (Workspace.greeting (ctx_type (mkCtx frustum "User sketched a frustum."))
           ++ Workspace.opener_text
                match ctx_type (mkCtx frustum "User sketched a frustum.") with
                | default => Workspace.AskFacesVertices
                | _ => Workspace.AskFirstVariable
                end)].
Proof.
  apply (sketch_contexts_are_canned
           [PointerDown (pt 0 0); PointerMove 1 (pt 10 0); PointerMove 1 (pt 10 4);
            PointerUp; ClickSolve; ModalConfirm frustum; TimerFires]
           (mkCtx frustum "User sketched a frustum.")).
  vm_compute. left. reflexivity.
Defined.

Lemma committed_paths_begin_with_moveto_witness :
  startsWith "M 0.00 0.00 Q 10.00 0.00 10.00 2.00 L 10.00 4.00" "M " = true.
Proof.
  apply (committed_paths_begin_with_moveto
           [ClickTemplate CUBE; PointerDown (pt 0 0); PointerMove 1 (pt 10 0);
            PointerMove 1 (pt 10 4); PointerUp]
           "M 0.00 0.00 Q 10.00 0.00 10.00 2.00 L 10.00 4.00").
  vm_compute. right. left. reflexivity.
Defined.

Lemma confirmation_is_final_witness :
  emitted_or_scheduled
    (sketch_run (sketch_run one_stroke [ClickSolve])
       (ModalConfirm pyramid
        :: [ModalConfirm cube; ClickSolve; ClickTemplate CUBE; ClickSolve; TimerFires]))
  = (emitted_or_scheduled (sketch_run one_stroke [ClickSolve])
     ++ [mkCtx pyramid
           (if GeometryType_eqb pyramid default
            then "User sketched a complex geometric shape. Ask them to describe its faces and vertices."
            else "User sketched a " ++ type_string pyramid ++ ".")])%list
  /\ isSolving
       (sketch_run (sketch_run one_stroke [ClickSolve])
          (ModalConfirm pyramid
           :: [ModalConfirm cube; ClickSolve; ClickTemplate CUBE; ClickSolve; TimerFires]))
     = true
  /\ showRecognition
       (sketch_run (sketch_run one_stroke [ClickSolve])
          (ModalConfirm pyramid
           :: [ModalConfirm cube; ClickSolve; ClickTemplate CUBE; ClickSolve; TimerFires]))
     = false.
Proof.
  apply (confirmation_is_final (sketch_run one_stroke [ClickSolve]) pyramid
           [ModalConfirm cube; ClickSolve; ClickTemplate CUBE; ClickSolve; TimerFires]).
  reflexivity.
Defined.

(* ================================================================== *)
(** * Further properties of the context retriever *)
(* ================================================================== *)

Lemma lower_ascii_idempotent (c : ascii) : lower_ascii (lower_ascii c) = lower_ascii c.
Proof. destruct c as [[] [] [] [] [] [] [] []]; reflexivity. Qed.

Lemma toLowerCase_idempotent (s : string) : toLowerCase (toLowerCase s) = toLowerCase s.
Proof.
  induction s as [|c s IH]; [reflexivity|].
  cbn [toLowerCase]. now rewrite lower_ascii_idempotent, IH.
Qed.

Lemma toLowerCase_app (a b : string) :
  toLowerCase (a ++ b) = toLowerCase a ++ toLowerCase b.
Proof. induction a as [|c a IH]; [reflexivity|]. cbn. now rewrite IH. Qed.

Lemma startsWith_app_l (n a b : string) :
  startsWith a n = true -> startsWith (a ++ b) n = true.
Proof.
  revert a. induction n as [|c n IH]; intros a Ha; [reflexivity|].
  destruct a as [|d a]; [discriminate|].
  cbn in Ha |- *. apply andb_true_iff in Ha as [Hc Ha].
  rewrite Hc. cbn. now apply IH.
Qed.

Lemma includes_app_l (a b n : string) :
  includes a n = true -> includes (a ++ b) n = true.
Proof.
  induction a as [|c a IH]; intros Ha.
  - destruct n as [|d n]; [destruct b; reflexivity | discriminate].
  - cbn [includes] in Ha. apply orb_true_iff in Ha as [Ha | Ha].
    + change (String c a ++ b) with (String c (a ++ b)). cbn [includes].
      change (String c (a ++ b)) with (String c a ++ b).
      now rewrite (startsWith_app_l n (String c a) b Ha).
    + change (String c a ++ b) with (String c (a ++ b)). cbn [includes].
      rewrite (IH Ha). apply orb_true_r.
Qed.

Lemma includes_app_r (a b n : string) :
  includes b n = true -> includes (a ++ b) n = true.
Proof.
  induction a as [|c a IH]; intros Hb; [exact Hb|].
  change (String c a ++ b) with (String c (a ++ b)). cbn [includes].
  rewrite (IH Hb). apply orb_true_r.
Qed.

Lemma includes_embedded (pre q post n : string) :
  includes (toLowerCase q) n = true ->
  includes (toLowerCase (pre ++ q ++ post)) n = true.
Proof.
  intros Hq. rewrite !toLowerCase_app.
  apply includes_app_r, includes_app_l, Hq.
Qed.

Lemma fallback_absent_on_hit (query : string) (type : GeometryType) :
  keyword_hit query = true ->
  includes (retrieveContext query type) "Key Properties: " = false.
Proof.
  unfold keyword_hit. rewrite retrieveContext_flags.
  destruct (asks_volume _), (asks_area _), (asks_other _), type;
    intros Hh; try discriminate Hh; vm_compute; reflexivity.
Qed.

(** X10: the retriever does not look at letter case: two queries with the
    same lower-case form get the same context, and so do a query and its
    lower-case form. *)
Theorem retrieveContext_ignores_case (q1 q2 : string) (type : GeometryType) :
  toLowerCase q1 = toLowerCase q2 ->
  retrieveContext q1 type = retrieveContext q2 type
  /\ retrieveContext (toLowerCase q1) type = retrieveContext q1 type.
Proof.
  intros Hq. split.
  - unfold retrieveContext, retrievedInfo. now rewrite Hq.
  - unfold retrieveContext, retrievedInfo. now rewrite toLowerCase_idempotent.
Qed.

Lemma retrieveContext_ignores_case_witness :
  retrieveContext "What is the VOLUME?" cube = retrieveContext "what is the Volume?" cube
  /\ retrieveContext (toLowerCase "What is the VOLUME?") cube
     = retrieveContext "What is the VOLUME?" cube.
Proof.
  apply (retrieveContext_ignores_case "What is the VOLUME?" "what is the Volume?" cube).
  reflexivity.
Defined.

(** X11: words around a query never take a keyword match away: a query that
    matches a keyword group still matches it with any text put before and
    after it, and so never falls back to the properties line. *)
Theorem keyword_match_survives_embedding
    (pre q post : string) (type : GeometryType) :
  keyword_hit q = true ->
  keyword_hit (pre ++ q ++ post) = true
  /\ implb (asks_volume (toLowerCase q)) (asks_volume (toLowerCase (pre ++ q ++ post))) = true
  /\ implb (asks_area (toLowerCase q)) (asks_area (toLowerCase (pre ++ q ++ post))) = true
  /\ implb (asks_other (toLowerCase q)) (asks_other (toLowerCase (pre ++ q ++ post))) = true
  /\ includes (retrieveContext (pre ++ q ++ post) type) "Key Properties: " = false.
Proof.
  intros Hh.
  assert (Hv : implb (asks_volume (toLowerCase q))
                 (asks_volume (toLowerCase (pre ++ q ++ post))) = true).
  { unfold asks_volume.
    destruct (includes (toLowerCase q) "volume") eqn:E1;
      [now rewrite (includes_embedded pre q post _ E1)|].
    destruct (includes (toLowerCase q) "space") eqn:E2;
      [rewrite (includes_embedded pre q post _ E2); cbn; now rewrite orb_true_r|].
    destruct (includes (toLowerCase q) "capacity") eqn:E3; [|reflexivity].
    rewrite (includes_embedded pre q post _ E3). cbn. now rewrite orb_true_r. }
  assert (Ha : implb (asks_area (toLowerCase q))
                 (asks_area (toLowerCase (pre ++ q ++ post))) = true).
  { unfold asks_area.
    destruct (includes (toLowerCase q) "area") eqn:E1;
      [now rewrite (includes_embedded pre q post _ E1)|].
    destruct (includes (toLowerCase q) "surface") eqn:E2; [|reflexivity].
    rewrite (includes_embedded pre q post _ E2). cbn. now rewrite orb_true_r. }
  assert (Ho : implb (asks_other (toLowerCase q))
                 (asks_other (toLowerCase (pre ++ q ++ post))) = true).
  { unfold asks_other.
    destruct (includes (toLowerCase q) "diagonal") eqn:E1;
      [now rewrite (includes_embedded pre q post _ E1)|].
    destruct (includes (toLowerCase q) "height") eqn:E2;
      [rewrite (includes_embedded pre q post _ E2); cbn; now rewrite orb_true_r|].
    destruct (includes (toLowerCase q) "slant") eqn:E3; [|reflexivity].
    rewrite (includes_embedded pre q post _ E3). cbn. now rewrite orb_true_r. }
  assert (Hh' : keyword_hit (pre ++ q ++ post) = true).
  { unfold keyword_hit in Hh |- *.
    destruct (asks_volume (toLowerCase q)); [cbn in Hv; now rewrite Hv|].
    destruct (asks_area (toLowerCase q));
      [cbn in Ha; rewrite Ha; cbn; now rewrite orb_true_r|].
    destruct (asks_other (toLowerCase q)); [|discriminate Hh].
    cbn in Ho. rewrite Ho. now rewrite orb_true_r. }
  repeat split; try assumption.
  now apply fallback_absent_on_hit.
Qed.

Lemma keyword_match_survives_embedding_witness :
  keyword_hit ("Please tell me, " ++ "what is the slant height" ++ " of this one?") = true
  /\ implb (asks_volume (toLowerCase "what is the slant height"))
       (asks_volume
          (toLowerCase ("Please tell me, " ++ "what is the slant height" ++ " of this one?")))
     = true
  /\ implb (asks_area (toLowerCase "what is the slant height"))
       (asks_area
          (toLowerCase ("Please tell me, " ++ "what is the slant height" ++ " of this one?")))
     = true
  /\ implb (asks_other (toLowerCase "what is the slant height"))
       (asks_other
          (toLowerCase ("Please tell me, " ++ "what is the slant height" ++ " of this one?")))
     = true
  /\ includes
       (retrieveContext
          ("Please tell me, " ++ "what is the slant height" ++ " of this one?") pyramid)
       "Key Properties: " = false.
Proof.
  apply (keyword_match_survives_embedding
           "Please tell me, " "what is the slant height" " of this one?" pyramid).
  reflexivity.
Defined.

(* ================================================================== *)
(** * Further properties of the tutoring session *)
(* ================================================================== *)

Module SessionFacts.
Import Workspace Session.

Ltac session_cases :=
  repeat match goal with
    | |- context [if ?b then _ else _] => destruct b eqn:?
    | |- context [match ?o with Some _ => _ | None => _ end] => destruct o eqn:?
    | |- context [match ?t with mkTurn _ _ _ => _ end] => destruct t
    | |- context [match ?p with Retrieving => _ | Sending => _ | Streaming _ => _ end] =>
        destruct p
    end.

Ltac unfold_handlers :=
  unfold handleKeyPress, clickSend, handleSendMessage, timer_fires, send_resolves,
    chunk_arrives, stream_ends, transport_fails, catch_finally.

Lemma uninitialized_step (s : State) (e : Event) :
  uninitialized s -> uninitialized (step s e).
Proof.
  unfold uninitialized. intros (Hc & Ht & Hm & Hs).
  destruct e as [v | key | | i | i | i txt | i | i]; cbn [step]; unfold_handlers;
    rewrite ?Hc, ?Ht, ?orb_true_r;
    try (destruct i; cbn [nth_error]);
    session_cases; cbn; auto.
Qed.

(** X12: before the chat handle exists nothing can be sent: from the
    mounted, not yet initialized view no run of events puts a message into
    the transcript, starts a turn or sends a prompt. *)
Theorem no_send_before_initChat (c : ProblemContext) (es : list Event) :
  messages (run (mount c) es) = []
  /\ turns (run (mount c) es) = []
  /\ sent (run (mount c) es) = []
  /\ chatSessionRef (run (mount c) es) = None.
Proof.
  assert (Hu : uninitialized (run (mount c) es)).
  { unfold run.
    apply (run_invariant step (fun _ => true) uninitialized);
      [intros s e _; apply uninitialized_step | now apply forallb_forall
      | repeat split]. }
  destruct Hu as (Hc & Ht & Hm & Hs). auto.
Qed.

(** X13: a turn taken in the Ready state whose stream ends normally leaves
    the session Ready with the question and the reply, the fragments joined
    in their order of arrival, appended to the transcript, the input field
    empty, and exactly one prompt sent: the retrieved context in brackets
    followed by the question. *)
Theorem completed_turn (s : State) (msg : string) (chunks : list string) :
  Ready s ->
  chatSessionRef s <> None ->
  trim_is_empty msg = false ->
  Ready (turn_completing s msg chunks)
  /\ messages (turn_completing s msg chunks)
     = (messages s ++ [mkMsg user msg; mkMsg ai (concat_chunks chunks)])%list
  /\ sent (turn_completing s msg chunks)
     = (sent s ++ [prompt_for (ctx_type (context s)) msg])%list
  /\ inputText (turn_completing s msg chunks) = "".
Proof.
  intros Hr Hc Hm.
  destruct s as [ctx msgs inp ty re chat ts snt].
  destruct Hr as (Hre & Hty & Hts). cbn in Hre, Hty, Hts, Hc. subst re ty ts.
  destruct chat as [chat|]; [clear Hc | congruence].
  assert (Hsend :
    run (mk ctx msgs inp false false (Some chat) [] snt)
      [InputChange msg; ClickSend; TimerFires 0; SendResolves 0]
    = mk ctx ((msgs ++ [mkMsg user msg]) ++ [mkMsg ai ""])%list "" true false (Some chat)
        [mkTurn msg (retrieveContext msg (ctx_type ctx)) (Streaming "")]
        (snt ++ [prompt_for (ctx_type ctx) msg])%list).
  { unfold run. cbn [fold_left step].
    unfold clickSend, send_disabled, setInputText.
    cbn [inputText isTyping isRetrieving].
    rewrite Hm. cbn [orb].
    unfold handleSendMessage.
    cbn [inputText chatSessionRef]. rewrite Hm. reflexivity. }
  unfold turn_completing.
  rewrite !WorkspaceFacts.run_app, Hsend, WorkspaceFacts.chunks_accumulate.
  cbv -[retrieveContext append List.app concat_chunks prompt_for].
  rewrite <- !app_assoc. repeat split.
Qed.

Lemma single_flight_step (s : State) (e : Event) :
  negb (is_enter_key e) = true ->
  single_flight s = true -> single_flight (step s e) = true.
Proof.
  intros He Hs.
  destruct s as [ctx msgs inp ty re chat ts snt].
  unfold single_flight in Hs. cbn [turns isRetrieving isTyping] in Hs.
  destruct ts as [|[m c ph] [|t' ts]]; [| |discriminate].
  - destruct re, ty; try discriminate.
    destruct e as [v | key | | i | i | i txt | i | i]; cbn [step]; unfold_handlers;
      cbn [is_enter_key] in He; rewrite ?(proj1 (negb_true_iff _) He);
      try (destruct i; cbn [nth_error turns]);
      unfold send_disabled; cbn [inputText isTyping isRetrieving chatSessionRef turns];
      session_cases; reflexivity.
  - destruct e as [v | key | | i | i | i txt | i | i]; cbn [step]; unfold_handlers;
      cbn [is_enter_key] in He; rewrite ?(proj1 (negb_true_iff _) He);
      try (destruct i as [|i]; [|destruct i]; cbn [nth_error turns]);
      unfold send_disabled; cbn [inputText isTyping isRetrieving chatSessionRef turns];
      destruct ph, re, ty; try discriminate Hs;
      rewrite ?orb_true_r; cbn [orb];
      session_cases; reflexivity.
Qed.

(** X14: when questions are sent with the send button only (no Enter key),
    a session that starts Ready never has more than one turn running, and
    the two flags always tell where that turn stands: retrieving while its
    timer is pending, typing from the request to the end of the stream. *)
Theorem button_only_single_flight (s : State) (es : list Event) :
  Ready s ->
  forallb (fun e => negb (is_enter_key e)) es = true ->
  single_flight (run s es) = true
  /\ (List.length (turns (run s es)) <= 1)%nat
  /\ in_flight (run s es) = negb (List.length (turns (run s es)) =? 0)%nat.
Proof.
  intros (Hre & Hty & Hts) Hes.
  assert (Hs : single_flight (run s es) = true).
  { unfold run.
    apply (run_invariant step (fun e => negb (is_enter_key e))
             (fun s => single_flight s = true));
      [apply single_flight_step | exact Hes |].
    unfold single_flight. now rewrite Hts, Hre, Hty. }
  split; [exact Hs|].
  set (r := run s es) in *. clearbody r. clear Hre Hty Hts Hes.
  unfold single_flight in Hs. unfold in_flight.
  destruct (turns r) as [|t [|t' ts]]; [| |discriminate].
  - destruct (isRetrieving r), (isTyping r); try discriminate Hs.
    split; [cbn; lia | reflexivity].
  - destruct (phase t), (isRetrieving r), (isTyping r); try discriminate Hs;
      (split; [cbn; lia | reflexivity]).
Qed.

End SessionFacts.

Lemma completed_turn_witness :
  Workspace.Ready
    (Session.turn_completing (Workspace.initChat (Workspace.mount (mkCtx cube "A cube")))
       "What is the volume?" ["Vol"; "ume is "; "10"])
  /\ Workspace.messages
       (Session.turn_completing (Workspace.initChat (Workspace.mount (mkCtx cube "A cube")))
          "What is the volume?" ["Vol"; "ume is "; "10"])
     = (Workspace.messages (Workspace.initChat (Workspace.mount (mkCtx cube "A cube")))
        ++ [mkMsg user "What is the volume?";
            mkMsg ai (Workspace.concat_chunks ["Vol"; "ume is "; "10"])])%list
  /\ Workspace.sent
       (Session.turn_completing (Workspace.initChat (Workspace.mount (mkCtx cube "A cube")))
          "What is the volume?" ["Vol"; "ume is "; "10"])
     = (Workspace.sent (Workspace.initChat (Workspace.mount (mkCtx cube "A cube")))
        ++ [Session.prompt_for
              (ctx_type
                 (Workspace.context
                    (Workspace.initChat (Workspace.mount (mkCtx cube "A cube")))))
              "What is the volume?"])%list
  /\ Workspace.inputText
       (Session.turn_completing (Workspace.initChat (Workspace.mount (mkCtx cube "A cube")))
          "What is the volume?" ["Vol"; "ume is "; "10"]) = "".
Proof.
  apply (SessionFacts.completed_turn
           (Workspace.initChat (Workspace.mount (mkCtx cube "A cube")))
           "What is the volume?" ["Vol"; "ume is "; "10"]).
  - repeat split.
  - discriminate.
  - reflexivity.
Defined.

Lemma button_only_single_flight_witness :
  Session.single_flight
    (Workspace.run (Workspace.initChat (Workspace.mount (mkCtx cube "A cube")))
       [Workspace.InputChange "What is the volume?"; Workspace.ClickSend;
        Workspace.InputChange "and the area?"; Workspace.ClickSend;
        Workspace.KeyDown "a"; Workspace.TimerFires 0; Workspace.ClickSend]) = true
  /\ (List.length
        (Workspace.turns
           (Workspace.run (Workspace.initChat (Workspace.mount (mkCtx cube "A cube")))
              [Workspace.InputChange "What is the volume?"; Workspace.ClickSend;
               Workspace.InputChange "and the area?"; Workspace.ClickSend;
               Workspace.KeyDown "a"; Workspace.TimerFires 0; Workspace.ClickSend])) <= 1)%nat
  /\ Workspace.in_flight
       (Workspace.run (Workspace.initChat (Workspace.mount (mkCtx cube "A cube")))
          [Workspace.InputChange "What is the volume?"; Workspace.ClickSend;
           Workspace.InputChange "and the area?"; Workspace.ClickSend;
           Workspace.KeyDown "a"; Workspace.TimerFires 0; Workspace.ClickSend])
     = negb
         (List.length
            (Workspace.turns
               (Workspace.run (Workspace.initChat (Workspace.mount (mkCtx cube "A cube")))
                  [Workspace.InputChange "What is the volume?"; Workspace.ClickSend;
                   Workspace.InputChange "and the area?"; Workspace.ClickSend;
                   Workspace.KeyDown "a"; Workspace.TimerFires 0; Workspace.ClickSend]))
          =? 0)%nat.
Proof.
  apply (SessionFacts.button_only_single_flight
           (Workspace.initChat (Workspace.mount (mkCtx cube "A cube")))
           [Workspace.InputChange "What is the volume?"; Workspace.ClickSend;
            Workspace.InputChange "and the area?"; Workspace.ClickSend;
            Workspace.KeyDown "a"; Workspace.TimerFires 0; Workspace.ClickSend]).
  - repeat split.
  - reflexivity.
Defined.

Module TranscriptFacts.
Import Workspace Session.


Ltac unfold_step :=
  cbn [step];
  unfold handleKeyPress, clickSend, handleSendMessage, timer_fires, send_resolves,
    chunk_arrives, stream_ends, transport_fails, catch_finally.






Lemma Forall_set_nth {A} (Q : A -> Prop) (l : list A) (i : nat) (x : A) :
  Forall Q l -> Q x -> Forall Q (set_nth i x l).
Proof.
  revert i. induction l as [|y l IH]; intros i Hl Hx; [destruct i; constructor|].
  inversion Hl; subst. destruct i; cbn; constructor; auto.
Qed.

Lemma Forall_drop_nth {A} (Q : A -> Prop) (l : list A) (i : nat) :
  Forall Q l -> Forall Q (drop_nth i l).
Proof.
  revert i. induction l as [|y l IH]; intros i Hl; [destruct i; constructor|].
  inversion Hl; subst. destruct i; cbn; [assumption | constructor; auto].
Qed.

Lemma Forall_nth_error {A} (Q : A -> Prop) (l : list A) (i : nat) (x : A) :
  Forall Q l -> nth_error l i = Some x -> Q x.
Proof.
  intros Hl Hn. rewrite Forall_forall in Hl. eapply Hl, nth_error_In, Hn.
Qed.

Lemma retrieveContext_begins (query : string) (type : GeometryType) :
  exists rest : string, retrieveContext query type = definition_line type ++ rest.
Proof.
  rewrite retrieveContext_flags. unfold context_for_flags, definition_line.
  destruct (asks_volume _), (asks_area _), (asks_other _);
    cbn [orb List.app join]; rewrite ?str_app_assoc; eexists; reflexivity.
Qed.

Lemma ends_with_question (a q : string) : includes (a ++ q) q = true.
Proof. apply includes_app_r. rewrite <- (str_app_nil_r q) at 1. apply includes_prefix. Qed.

Lemma user_messages_nonblank_step (s : State) (e : Event) :
  user_messages_nonblank s -> user_messages_nonblank (step s e).
Proof.
  unfold user_messages_nonblank. intros Hs.
  assert (Hai : forall txt : string,
             Forall (fun m => role m = user -> trim_is_empty (text m) = false)
               (messages s ++ [mkMsg ai txt])%list).
  { intros txt. apply Forall_app. split; [exact Hs|].
    repeat constructor. discriminate. }
  assert (Hsend : Forall (fun m => role m = user -> trim_is_empty (text m) = false)
                    (messages (handleSendMessage s))).
  { unfold handleSendMessage.
    destruct (trim_is_empty (inputText s)) eqn:Eb; [exact Hs|].
    destruct (chatSessionRef s); cbn; [|exact Hs].
    unfold push. apply Forall_app. split; [exact Hs|].
    repeat constructor. intros _. exact Eb. }
  destruct e as [v | key | | i | i | i txt | i | i]; unfold_step.
  - exact Hs.
  - destruct (String.eqb key "Enter"); [exact Hsend | exact Hs].
  - destruct (send_disabled s); [exact Hs | exact Hsend].
  - destruct (nth_error (turns s) i) as [[m c ph]|]; [|exact Hs]. destruct ph; exact Hs.
  - destruct (nth_error (turns s) i) as [[m c ph]|]; [|exact Hs].
    destruct ph; try exact Hs. cbn. apply Hai.
  - destruct (nth_error (turns s) i) as [[m c ph]|]; [|exact Hs].
    destruct ph; try exact Hs. destruct (truthy txt); [|exact Hs].
    cbn. unfold set_last. destruct (messages s) as [|x l] eqn:Em; [constructor|].
    rewrite <- Em in *. apply Forall_app. split.
    + clear - Hs. destruct (messages s) as [|y l] using rev_ind; [constructor|].
      rewrite removelast_last. apply Forall_app in Hs. tauto.
    + repeat constructor. discriminate.
  - destruct (nth_error (turns s) i) as [[m c ph]|]; [|exact Hs]. destruct ph; exact Hs.
  - destruct (nth_error (turns s) i) as [[m c ph]|]; [|exact Hs].
    destruct ph; try exact Hs; cbn; apply Hai.
Qed.

(** X17: no blank question ever enters the transcript: in every run of an
    initialized session, each user message holds something other than
    white space, by whichever path it was sent. *)
Theorem user_messages_are_never_blank
    (c : ProblemContext) (es : list Event) (m : ChatMessage) :
  In m (messages (run (initChat (mount c)) es)) ->
  role m = user ->
  trim_is_empty (text m) = false.
Proof.
  intros Hin Hu.
  assert (Hn : user_messages_nonblank (run (initChat (mount c)) es)).
  { unfold run.
    apply (run_invariant step (fun _ => true) user_messages_nonblank);
      [intros s e _; apply user_messages_nonblank_step | now apply forallb_forall |].
    repeat constructor. discriminate. }
  unfold user_messages_nonblank in Hn. rewrite Forall_forall in Hn. now apply Hn.
Qed.

End TranscriptFacts.

Lemma user_messages_are_never_blank_witness :
  trim_is_empty (text (mkMsg user "and the area?")) = false.
Proof.
  apply (TranscriptFacts.user_messages_are_never_blank
           (mkCtx cube "A cube")
           [Workspace.InputChange "and the area?"; Workspace.KeyDown "Enter"]
           (mkMsg user "and the area?")).
  - vm_compute. right. left. reflexivity.
  - reflexivity.
Defined.

(* ================================================================== *)
(** * The mounted view across changes of context *)
(* ================================================================== *)

Module MountedFacts.
Import Workspace Session.

Lemma kind_in_list (k : GeometryType) (K : list GeometryType) :
  existsb (GeometryType_eqb k) K = true <-> In k K.
Proof.
  rewrite existsb_exists. split.
  - intros (x & Hx & He). destruct k, x; try discriminate He; exact Hx.
  - intros Hk. exists k. split; [exact Hk | destruct k; reflexivity].
Qed.

Lemma kinds_given_allowed (es : list Mounted.Event) (K : list GeometryType) :
  incl (Mounted.kinds_given es) K ->
  forallb (Mounted.kind_allowed K) es = true.
Proof.
  induction es as [|[e | c] es IH]; intros Hi; [reflexivity | |].
  - cbn. now apply IH.
  - cbn in Hi |- *. apply andb_true_iff. split.
    + apply kind_in_list, Hi. now left.
    + apply IH. intros k Hk. apply Hi. now right.
Qed.

Lemma no_change_no_kinds (es : list Mounted.Event) :
  forallb (fun e => negb (Mounted.is_context_change e)) es = true ->
  Mounted.kinds_given es = [].
Proof.
  induction es as [|[e | c] es IH]; intros Hes; [reflexivity | | discriminate Hes].
  cbn in Hes |- *. now apply IH.
Qed.




Lemma prompts_from_session_step (K : list GeometryType) (s : State) (e : Workspace.Event) :
  Mounted.prompts_from K s -> Mounted.prompts_from K (Workspace.step s e).
Proof.
  unfold Mounted.prompts_from. intros (Hk & Ht & Hp).
  assert (Hsend : Mounted.prompts_from K (handleSendMessage s)).
  { unfold Mounted.prompts_from, handleSendMessage.
    destruct (trim_is_empty (inputText s)) eqn:Eb; [cbn; auto|].
    destruct (chatSessionRef s); cbn; [|auto].
    split; [exact Hk|]. split; [|exact Hp].
    unfold push. apply Forall_app. split; [exact Ht|].
    repeat constructor. exists (ctx_type (context s)). cbn. auto. }
  destruct e as [v | key | | i | i | i txt | i | i]; TranscriptFacts.unfold_step.
  - cbn. auto.
  - destruct (String.eqb key "Enter"); [exact Hsend | auto].
  - destruct (send_disabled s); [auto | exact Hsend].
  - destruct (nth_error (turns s) i) as [[m c ph]|] eqn:En; [|auto].
    destruct ph; auto.
    destruct (TranscriptFacts.Forall_nth_error _ _ _ _ Ht En) as (k & Hin & Hc & Hb).
    cbn in Hc, Hb.
    cbn. split; [exact Hk|]. split.
    + apply TranscriptFacts.Forall_set_nth; [exact Ht | exists k; auto].
    + unfold push. apply Forall_app. split; [exact Hp|].
      repeat constructor. exists m, k. split; [exact Hin|]. split; [|exact Hb].
      unfold prompt_for. now rewrite Hc.
  - destruct (nth_error (turns s) i) as [[m c ph]|] eqn:En; [|auto].
    destruct ph; auto.
    destruct (TranscriptFacts.Forall_nth_error _ _ _ _ Ht En) as (k & Hin & Hc & Hb).
    cbn. split; [exact Hk|]. split; [|exact Hp].
    apply TranscriptFacts.Forall_set_nth; [exact Ht | exists k; auto].
  - destruct (nth_error (turns s) i) as [[m c ph]|] eqn:En; [|auto].
    destruct ph; auto.
    destruct (truthy txt); [|auto].
    destruct (TranscriptFacts.Forall_nth_error _ _ _ _ Ht En) as (k & Hin & Hc & Hb).
    cbn. split; [exact Hk|]. split; [|exact Hp].
    apply TranscriptFacts.Forall_set_nth; [exact Ht | exists k; auto].
  - destruct (nth_error (turns s) i) as [[m c ph]|] eqn:En; [|auto].
    destruct ph; auto.
    cbn. split; [exact Hk|]. split; [|exact Hp].
    now apply TranscriptFacts.Forall_drop_nth.
  - destruct (nth_error (turns s) i) as [[m c ph]|] eqn:En; [|auto].
    destruct ph; auto;
      cbn; (split; [exact Hk|]); (split; [|exact Hp]);
      now apply TranscriptFacts.Forall_drop_nth.
Qed.

Lemma prompts_from_step (K : list GeometryType) (s : State) (e : Mounted.Event) :
  Mounted.kind_allowed K e = true ->
  Mounted.prompts_from K s -> Mounted.prompts_from K (Mounted.step s e).
Proof.
  destruct e as [e | c]; intros He Hs; [now apply prompts_from_session_step|].
  destruct Hs as (_ & Ht & Hp). cbn in He. apply kind_in_list in He.
  repeat split; assumption.
Qed.

(** X16: every prompt the mounted view passes to the chat service, in any
    run with any changes of context, has the form the source builds: the
    context retrieved for the question [q] and a kind [k], in brackets,
    followed by [q], which is not blank. It contains the definition line of
    [k] and the question. The kind [k] is the kind of the initial context
    or of a context given later (a question is retrieved for the kind the
    view has when it is sent, also if the context changes before its timer
    runs out); in a run without change of context it is the session's
    kind. *)
Theorem prompts_carry_a_given_kind
    (c : ProblemContext) (es : list Mounted.Event) (p : string) :
  In p (sent (Mounted.run (initChat (mount c)) es)) ->
  (exists (q : string) (k : GeometryType),
      In k (ctx_type c :: Mounted.kinds_given es)
      /\ p = "[Context: " ++ retrieveContext q k ++ "] User Question: " ++ q
      /\ trim_is_empty q = false
      /\ includes p (definition_line k) = true
      /\ includes p q = true)
  /\ (forallb (fun e => negb (Mounted.is_context_change e)) es = true ->
      exists q : string,
        p = "[Context: " ++ retrieveContext q (ctx_type c) ++ "] User Question: " ++ q
        /\ includes p (definition_line (ctx_type c)) = true).
Proof.
  intros Hin.
  assert (Hw : Mounted.prompts_from (ctx_type c :: Mounted.kinds_given es)
                 (Mounted.run (initChat (mount c)) es)).
  { unfold Mounted.run.
    apply (run_invariant Mounted.step
             (Mounted.kind_allowed (ctx_type c :: Mounted.kinds_given es))
             (Mounted.prompts_from (ctx_type c :: Mounted.kinds_given es)));
      [apply prompts_from_step
      | apply kinds_given_allowed; intros k Hk; now right |].
    split; [now left | split; constructor]. }
  destruct Hw as (_ & _ & Hp). rewrite Forall_forall in Hp.
  destruct (Hp p Hin) as (q & k & Hk & Ep & Hb).
  unfold prompt_for in Ep.
  assert (Hdef : includes p (definition_line k) = true).
  { rewrite Ep. destruct (TranscriptFacts.retrieveContext_begins q k) as (rest & ->).
    apply includes_app_r. rewrite str_app_assoc. apply includes_prefix. }
  split.
  - exists q, k. repeat split; try assumption.
    rewrite Ep. rewrite <- !str_app_assoc. apply TranscriptFacts.ends_with_question.
  - intros Hes. rewrite (no_change_no_kinds es Hes) in Hk.
    destruct Hk as [<- | []]. exists q. split; assumption.
Qed.

End MountedFacts.


Lemma prompts_carry_a_given_kind_witness :
  (exists (q : string) (k : GeometryType),
      In k (ctx_type (mkCtx cube "A cube") :: Mounted.kinds_given question_across_contexts)
      /\ "[Context: Definition: A regular hexahedron with 6 equal square faces."
         ++ newline ++ "Relevant Formulas: Surface Area = 6s²] User Question: and the area?"
         = "[Context: " ++ retrieveContext q k ++ "] User Question: " ++ q
      /\ trim_is_empty q = false
      /\ includes
           ("[Context: Definition: A regular hexahedron with 6 equal square faces."
            ++ newline
            ++ "Relevant Formulas: Surface Area = 6s²] User Question: and the area?")
           (definition_line k) = true
      /\ includes
           ("[Context: Definition: A regular hexahedron with 6 equal square faces."
            ++ newline
            ++ "Relevant Formulas: Surface Area = 6s²] User Question: and the area?")
           q = true)
  /\ (forallb (fun e => negb (Mounted.is_context_change e)) question_across_contexts = true ->
      exists q : string,
        "[Context: Definition: A regular hexahedron with 6 equal square faces."
        ++ newline ++ "Relevant Formulas: Surface Area = 6s²] User Question: and the area?"
        = "[Context: " ++ retrieveContext q (ctx_type (mkCtx cube "A cube"))
          ++ "] User Question: " ++ q
        /\ includes
             ("[Context: Definition: A regular hexahedron with 6 equal square faces."
              ++ newline
              ++ "Relevant Formulas: Surface Area = 6s²] User Question: and the area?")
             (definition_line (ctx_type (mkCtx cube "A cube"))) = true).
Proof.
  apply (MountedFacts.prompts_carry_a_given_kind
           (mkCtx cube "A cube") question_across_contexts).
  vm_compute. left. reflexivity.
Defined.

(** What a change of context does to a session in flight: the transcript is
    cut down to the new opening message, the next fragment of the running
    reply is written over it, and a question retrieved for the cube is sent
    to the chat of the frustum. *)
Example context_change_in_flight :
  Workspace.messages
    (Mounted.run (Workspace.initChat (Workspace.mount (mkCtx cube "A cube")))
       [Mounted.OfSession (Workspace.InputChange "What is the volume?");
        Mounted.OfSession (Workspace.KeyDown "Enter");
        Mounted.OfSession (Workspace.TimerFires 0);
        Mounted.OfSession (Workspace.SendResolves 0);
        Mounted.OfSession (Workspace.ChunkArrives 0 "Vol");
        Mounted.ContextChanges (mkCtx frustum "User sketched a frustum.");
        Mounted.OfSession (Workspace.ChunkArrives 0 "ume")])
  = [mkMsg ai "Volume"]
  /\ Workspace.sent
       (Mounted.run (Workspace.initChat (Workspace.mount (mkCtx cube "A cube")))
          question_across_contexts)
     = ["[Context: Definition: A regular hexahedron with 6 equal square faces."
        ++ newline ++ "Relevant Formulas: Surface Area = 6s²] User Question: and the area?"]
  /\ ctx_type
       (Workspace.context
          (Mounted.run (Workspace.initChat (Workspace.mount (mkCtx cube "A cube")))
             question_across_contexts)) = frustum.
Proof. vm_compute. repeat split. Qed.

(* ================================================================== *)
(** * Further properties of the scan view and of the navigation *)
(* ================================================================== *)

Module ScanMoreFacts.
Import ScanView.

Lemma nonblank_truthy (v : string) : trim_is_empty v = false -> truthy v = true.
Proof. destruct v; [discriminate | reflexivity]. Qed.

Lemma nonblank_step (s : State) (e : Event) :
  Forall (fun c => trim_is_empty (ctx_text c) = false) (analyzed s) ->
  Forall (fun c => trim_is_empty (ctx_text c) = false) (analyzed (step s e)).
Proof.
  intros Hs.
  destruct e as [ty | f | | v | | i]; cbn [step].
  - unfold handleDrag. destruct (_ || _); [exact Hs|]. destruct (String.eqb _ _); exact Hs.
  - unfold handleDrop. destruct f; exact Hs.
  - exact Hs.
  - exact Hs.
  - unfold handleAnalyze. destruct (truthy _); [|exact Hs].
    destruct (trim_is_empty (problemText s)) eqn:Eb; [exact Hs|].
    apply ScanViewFacts.Forall_push; [exact Hs | exact Eb].
  - destruct (nth_error examples i) as [ex|] eqn:E; [|exact Hs].
    apply ScanViewFacts.Forall_push; [exact Hs|].
    destruct i as [|[|[|[|i]]]]; cbn in E; inversion E; subst; try reflexivity.
    destruct i; discriminate.
Qed.

Lemma example_openers (c : ProblemContext) :
  In c examples ->
  Workspace.Opener_eqb (Workspace.choose_opener c) Workspace.AskWhereToStart = false.
Proof.
  intros Hin. repeat (destruct Hin as [<- | Hin]; [reflexivity|]). destruct Hin.
Qed.

Lemma default_openers (c : ProblemContext) :
  ctx_type c = default ->
  Workspace.Opener_eqb (Workspace.choose_opener c) Workspace.AskWhereToStart = false.
Proof.
  intros Hd. unfold Workspace.choose_opener. rewrite Hd.
  destruct (Workspace.signals_image_upload c); reflexivity.
Qed.

Lemma generic_opener_text (k : GeometryType) (o : Workspace.Opener) :
  Workspace.Opener_eqb o Workspace.AskWhereToStart = false ->
  includes (Workspace.greeting k ++ Workspace.opener_text o) "Where should we start?" = false.
Proof. destruct k, o; intros Ho; try discriminate Ho; vm_compute; reflexivity. Qed.

(** X18: the scan view never passes on a context whose text is blank: in
    every run, each context handed to the analysis has a text with
    something other than white space in it (white space alone enables the
    button, and the handler refuses it). *)
Theorem scan_contexts_are_never_blank (es : list Event) (c : ProblemContext) :
  In c (analyzed (run init es)) ->
  trim_is_empty (ctx_text c) = false.
Proof.
  intros Hin.
  assert (Hall : Forall (fun c => trim_is_empty (ctx_text c) = false)
                   (analyzed (run init es))).
  { unfold run.
    apply (run_invariant step (fun _ => true)
             (fun s => Forall (fun c => trim_is_empty (ctx_text c) = false) (analyzed s)));
      [intros s e _; apply nonblank_step | now apply forallb_forall | constructor]. }
  rewrite Forall_forall in Hall. now apply Hall.
Qed.

(** X19: what the scan view analyses after an upload gesture. A dropped
    file replaces whatever text there was by the upload placeholder, and
    the analysis then passes on the placeholder, for which the session
    opens with the question about the measurements; a click on the drop
    zone keeps text that was typed, and the analysis passes on that text. *)
Theorem upload_gestures (s : State) (v : string) :
  trim_is_empty v = false ->
  analyzed (run s [TextChange v; Drop true; ClickAnalyze])
  = push (analyzed s) (mkCtx default upload_placeholder)
  /\ analyzed (run s [TextChange v; ClickDropZone; ClickAnalyze])
     = push (analyzed s) (mkCtx default v)
  /\ analyzed (run s [TextChange v; Drop false; ClickAnalyze])
     = push (analyzed s) (mkCtx default v)
  /\ analyzed (run s [TextChange ""; ClickDropZone; ClickAnalyze])
     = push (analyzed s) (mkCtx default upload_placeholder)
  /\ Workspace.choose_opener (mkCtx default upload_placeholder)
     = Workspace.AskMeasurements.
Proof.
  intros Hv. pose proof (nonblank_truthy v Hv) as Ht.
  unfold run. cbn [fold_left step].
  unfold clickDropZone, handleDrop, handleAnalyze.
  cbn [problemText dragActive analyzed]. rewrite Ht, Hv.
  cbn [truthy trim_is_empty]. rewrite ?Ht, ?Hv.
  repeat split; vm_compute; reflexivity.
Qed.

(** X20: no context that leaves the scan view, typed or example, in any
    run, makes the session open with the generic opener: its opening
    message never asks where to start. *)
Theorem scan_contexts_skip_generic_opener (es : list Event) (c : ProblemContext) :
  In c (analyzed (run init es)) ->
  Workspace.Opener_eqb (Workspace.choose_opener c) Workspace.AskWhereToStart = false
  /\ includes (Workspace.initialMsg c) "Where should we start?" = false.
Proof.
  intros Hin.
  cut (Workspace.Opener_eqb (Workspace.choose_opener c) Workspace.AskWhereToStart = false).
  { intros Ho. split; [exact Ho|].
    rewrite WorkspaceFacts.initialMsg_opener. now apply generic_opener_text. }
  assert (Ht : typed_or_example (run init es)).
  { unfold run.
    apply (run_invariant step (fun _ => true) typed_or_example);
      [intros s e _; apply ScanViewFacts.typed_or_example_step
      | now apply forallb_forall | constructor]. }
  unfold typed_or_example in Ht. rewrite Forall_forall in Ht.
  destruct (Ht c Hin) as [Hd | Hex]; [now apply default_openers | now apply example_openers].
Qed.

End ScanMoreFacts.

Lemma scan_contexts_are_never_blank_witness :
  trim_is_empty (ctx_text (mkCtx default " a cone ")) = false.
Proof.
  apply (ScanMoreFacts.scan_contexts_are_never_blank
           [ScanView.TextChange "   "; ScanView.ClickAnalyze;
            ScanView.TextChange " a cone "; ScanView.ClickAnalyze]
           (mkCtx default " a cone ")).
  vm_compute. left. reflexivity.
Defined.

Lemma upload_gestures_witness :
  ScanView.analyzed
    (ScanView.run ScanView.init
       [ScanView.TextChange "a cone"; ScanView.Drop true; ScanView.ClickAnalyze])
  = push (ScanView.analyzed ScanView.init) (mkCtx default ScanView.upload_placeholder)
  /\ ScanView.analyzed
       (ScanView.run ScanView.init
          [ScanView.TextChange "a cone"; ScanView.ClickDropZone; ScanView.ClickAnalyze])
     = push (ScanView.analyzed ScanView.init) (mkCtx default "a cone")
  /\ ScanView.analyzed
       (ScanView.run ScanView.init
          [ScanView.TextChange "a cone"; ScanView.Drop false; ScanView.ClickAnalyze])
     = push (ScanView.analyzed ScanView.init) (mkCtx default "a cone")
  /\ ScanView.analyzed
       (ScanView.run ScanView.init
          [ScanView.TextChange ""; ScanView.ClickDropZone; ScanView.ClickAnalyze])
     = push (ScanView.analyzed ScanView.init) (mkCtx default ScanView.upload_placeholder)
  /\ Workspace.choose_opener (mkCtx default ScanView.upload_placeholder)
     = Workspace.AskMeasurements.
Proof.
  apply (ScanMoreFacts.upload_gestures ScanView.init "a cone"). reflexivity.
Defined.

Lemma scan_contexts_skip_generic_opener_witness :
  Workspace.Opener_eqb
    (Workspace.choose_opener (mkCtx default "cube"))
    Workspace.AskWhereToStart = false
  /\ includes (Workspace.initialMsg (mkCtx default "cube")) "Where should we start?" = false.
Proof.
  apply (ScanMoreFacts.scan_contexts_skip_generic_opener
           [ScanView.TextChange "cube"; ScanView.ClickAnalyze]
           (mkCtx default "cube")).
  vm_compute. left. reflexivity.
Defined.

Module AppFacts.
Import App.

Lemma navigation_step (s : State) (e : Event) :
  is_navigation e = true ->
  loading (step s e) = loading s
  /\ problemContext (step s e) = problemContext s
  /\ timers (step s e) = timers s
  /\ (view s <> workspace -> view (step s e) <> workspace).
Proof.
  intros He. destruct e; try discriminate He; cbn [step];
    try (destruct mode); unfold handleDashboardSelect, navigateTo;
    repeat match goal with |- context [if ?b then _ else _] => destruct b end;
    cbn; repeat split; auto; discriminate.
Qed.

Lemma navigation_run (es : list Event) :
  forall s : State,
    forallb is_navigation es = true ->
    loading (run s es) = loading s
    /\ problemContext (run s es) = problemContext s
    /\ timers (run s es) = timers s.
Proof.
  induction es as [|e es IH]; intros s Hes; [repeat split|].
  cbn in Hes. apply andb_true_iff in Hes as [He Hes].
  destruct (navigation_step s e He) as (Hl & Hp & Ht & _).
  destruct (IH (step s e) Hes) as (Hl' & Hp' & Ht').
  change (run s (e :: es)) with (run (step s e) es).
  repeat split; congruence.
Qed.

Lemma no_timer_step (s : State) (e : Event) :
  negb (is_timer e) = true ->
  view s <> workspace -> view (step s e) <> workspace.
Proof.
  intros He Hv. destruct e; try discriminate He; cbn [step];
    try (destruct mode); unfold handleDashboardSelect, handleAnalyze, navigateTo;
    repeat match goal with |- context [if ?b then _ else _] => destruct b end;
    cbn; auto; discriminate.
Qed.

(** X21: the workspace is entered through a finished analysis and in no
    other way. With no analysis pending, an analysis of a context followed
    by any navigation (logo, start, cards, back) ends, when its timer runs
    out, in the workspace view with exactly that context installed and the
    loading overlay off, wherever the user went in between; and no run from
    the landing view without a timer running out shows the workspace. *)
Theorem analysis_ends_in_workspace
    (s : State) (c : ProblemContext) (es : list Event) :
  timers s = [] ->
  forallb is_navigation es = true ->
  view (run s (Analyze c :: es ++ [TimerFires])%list) = workspace
  /\ problemContext (run s (Analyze c :: es ++ [TimerFires])%list) = c
  /\ loading (run s (Analyze c :: es ++ [TimerFires])%list) = false
  /\ loading (run s (Analyze c :: es)) = true
  /\ (forall es' : list Event,
        forallb (fun e => negb (is_timer e)) es' = true ->
        view (run init es') <> workspace).
Proof.
  intros Ht Hes.
  change (run s (Analyze c :: es ++ [TimerFires])%list)
    with (run (handleAnalyze c s) (es ++ [TimerFires])%list).
  change (run s (Analyze c :: es)) with (run (handleAnalyze c s) es).
  unfold run at 1 2 3. rewrite fold_left_app.
  fold (run (handleAnalyze c s) es).
  destruct (navigation_run es (handleAnalyze c s) Hes) as (Hl & Hp & Htm).
  cbn [fold_left step]. unfold timer_fires. rewrite Htm.
  cbn [handleAnalyze timers]. rewrite Ht. cbn [push List.app].
  repeat split; [exact Hl|].
  intros es' Hes'. unfold run.
  apply (run_invariant step (fun e => negb (is_timer e)) (fun s => view s <> workspace));
    [apply no_timer_step | exact Hes' | discriminate].
Qed.

End AppFacts.

Lemma analysis_ends_in_workspace_witness :
  App.view
    (App.run (App.run App.init [App.Start; App.Select App.mode_sketch])
       (App.Analyze (mkCtx cube "User sketched a cube.")
        :: [App.Back; App.ClickLogo; App.Start] ++ [App.TimerFires])%list) = App.workspace
  /\ App.problemContext
       (App.run (App.run App.init [App.Start; App.Select App.mode_sketch])
          (App.Analyze (mkCtx cube "User sketched a cube.")
           :: [App.Back; App.ClickLogo; App.Start] ++ [App.TimerFires])%list)
     = mkCtx cube "User sketched a cube."
  /\ App.loading
       (App.run (App.run App.init [App.Start; App.Select App.mode_sketch])
          (App.Analyze (mkCtx cube "User sketched a cube.")
           :: [App.Back; App.ClickLogo; App.Start] ++ [App.TimerFires])%list) = false
  /\ App.loading
       (App.run (App.run App.init [App.Start; App.Select App.mode_sketch])
          (App.Analyze (mkCtx cube "User sketched a cube.")
           :: [App.Back; App.ClickLogo; App.Start])) = true
  /\ (forall es' : list App.Event,
        forallb (fun e => negb (App.is_timer e)) es' = true ->
        App.view (App.run App.init es') <> App.workspace).
Proof.
  apply (AppFacts.analysis_ends_in_workspace
           (App.run App.init [App.Start; App.Select App.mode_sketch])
           (mkCtx cube "User sketched a cube.")
           [App.Back; App.ClickLogo; App.Start]);
    reflexivity.
Defined.
